(** * GitConsensus: vote tally and consensus checks of [gitconsensus/repository.py]

    The development embeds the decision logic of the three classes of
    [repository.py] ([Repository], [PullRequest], [Consensus]) and states the
    properties of the tally builder and of the merge / close criteria.

    Modelling conventions.
    - Python lists of user names are [list string]; [l.append(x)] is
      [l ++ [x]], [x in l] is [py_in], [l.remove(x)] is [py_remove] (first
      occurrence only).
    - The policy ([Repository.rules]) is either [False] (no policy file) or
      the dictionary read from YAML.  The dictionary is a record with one
      optional field per recognised key; [None] means the key is absent.
    - A Python exception is an explicit [Raise] result.
    - Naive datetimes are integers (seconds); a commit's author date is
      taken as [strptime] parses it; the two calls of [datetime.now()] made
      while one criterion is computed are one reading [now], an argument of
      the time functions.
    - Python's true division and float comparisons are taken over exact
      rationals ([Q]); [py_truediv] and [hasVotes_binary64] add the rounding
      of the quotient to binary64, for the statement that depends on it. *)

From Stdlib Require Import List String Ascii Bool Arith ZArith QArith Qround
  Qpower Lia Lqa.
Import ListNotations.

Local Open Scope string_scope.
Local Open Scope list_scope.

(** ** Exceptions and results *)

Inductive exn : Type :=
| NameError          (* a global name that the module does not define *)
| TypeError          (* [key in False] *)
| UnboundLocalError. (* a local read before any assignment *)

Inductive result (A : Type) : Type :=
| Ok (a : A)
| Raise (e : exn).

Arguments Ok {A} a.
Arguments Raise {A} e.

Definition bind {A B : Type} (m : result A) (k : A -> result B) : result B :=
  match m with
  | Ok a => k a
  | Raise e => Raise e
  end.

Notation "x <- m ;; k" := (bind m (fun x => k))
  (at level 61, m at next level, right associativity).

(** ** List operations of Python *)

(** [x in l] *)
Definition py_in (x : string) (l : list string) : bool :=
  existsb (String.eqb x) l.

(** [l.remove(x)]: drops the first occurrence of [x].  Every call in the
    source is guarded by [x in l], so the [ValueError] case never runs. *)
Fixpoint py_remove (x : string) (l : list string) : list string :=
  match l with
  | [] => []
  | y :: l' => if String.eqb x y then l' else y :: py_remove x l'
  end.

(** [s.lower()] on ASCII letters. *)
Definition lower_ascii (c : ascii) : ascii :=
  let n := nat_of_ascii c in
  if (65 <=? n)%nat && (n <=? 90)%nat then ascii_of_nat (n + 32) else c.

Fixpoint lower (s : string) : string :=
  match s with
  | EmptyString => EmptyString
  | String c s' => String (lower_ascii c) (lower s')
  end.

(** ** The policy *)

Record Rules : Type := mkRules {
  collaborators_only : option bool;
  contributors_only  : option bool;
  whitelist          : option (list string);
  prevent_doubles    : option bool;
  quorum             : option Z;
  threshold          : option Q;
  mergedelay         : option Q;
  timeout            : option Q
}.

(** The policy with no key at all. *)
Definition no_rules : Rules :=
  mkRules None None None None None None None None.

(** ['key' in rules and rules['key']] *)
Definition enabled (flag : option bool) : bool :=
  match flag with
  | Some true => true
  | _ => false
  end.

(** ** Repository *)

Record Repository : Type := mkRepository {
  rules        : option Rules;  (* [None] is Python's [False] *)
  contributors : list string    (* logins of [iter_contributors()] *)
}.

Definition isContributor (self : Repository) (username : string) : bool :=
  py_in username (contributors self).

(** ** Pull requests *)

(** One element of the reactions list: [reaction['content']] and
    [reaction['user']['login']]. *)
Record Reaction : Type := mkReaction {
  login   : string;
  content : string
}.

(** The part of the github3 pull request object that the checks read. *)
Record GhPull : Type := mkGhPull {
  mergeable    : option bool;  (* [None] while the platform computes it *)
  created_at   : Z;
  commit_dates : list Z        (* author dates, in iteration order *)
}.

Record PullRequest : Type := mkPullRequest {
  repository : Repository;
  pr         : GhPull;
  labels     : list string;
  yes        : list string;
  no         : list string;
  abstain    : list string;
  users      : list string;
  doubles    : list string
}.

Definition set_votes (self : PullRequest) (y n a u d : list string)
  : PullRequest :=
  mkPullRequest (repository self) (pr self) (labels self) y n a u d.

(** The object before the loop of [__init__] runs. *)
Definition fresh (repo : Repository) (p : GhPull) (ls : list string)
  : PullRequest :=
  mkPullRequest repo p ls [] [] [] [] [].

(** Lines 123-134: the voter is struck out. *)
Definition exclude_double (self : PullRequest) (username : string)
  : PullRequest :=
  set_votes self
    (if py_in username (yes self)
     then py_remove username (yes self) else yes self)
    (if py_in username (no self)
     then py_remove username (no self) else no self)
    (if py_in username (abstain self)
     then py_remove username (abstain self) else abstain self)
    (py_remove username (users self))
    (doubles self ++ [username]).

(** Lines 145-146. *)
Definition add_user (username : string) (us : list string) : list string :=
  if py_in username us then us else us ++ [username].

(** Lines 136-146: the content table and the voter list. *)
Definition record_vote (self : PullRequest) (username c : string)
  : PullRequest :=
  if String.eqb c "+1" then
    set_votes self (yes self ++ [username]) (no self) (abstain self)
      (add_user username (users self)) (doubles self)
  else if String.eqb c "-1" then
    set_votes self (yes self) (no self ++ [username]) (abstain self)
      (add_user username (users self)) (doubles self)
  else if String.eqb c "confused" then
    set_votes self (yes self) (no self) (abstain self ++ [username])
      (add_user username (users self)) (doubles self)
  else self.

(** One iteration of the loop of [PullRequest.__init__] (lines 104-146).
    [isCollaborator] on line 112 is a bare name; the module defines no such
    global, so evaluating it raises [NameError]. *)
Definition react (self : PullRequest) (reaction : Reaction)
  : result PullRequest :=
  let username := login reaction in
  if py_in username (doubles self) then Ok self
  else
    match rules (repository self) with
    | None => Raise TypeError
    | Some rl =>
        if enabled (collaborators_only rl) then Raise NameError
        else if enabled (contributors_only rl)
                && negb (isContributor (repository self) username)
        then Ok self
        else if match whitelist rl with
                | Some wl => negb (py_in username wl)
                | None => false
                end
        then Ok self
        else if enabled (prevent_doubles rl) && py_in username (users self)
        then Ok (exclude_double self username)
        else Ok (record_vote self username (content reaction))
    end.

Fixpoint react_all (self : PullRequest) (reactions : list Reaction)
  : result PullRequest :=
  match reactions with
  | [] => Ok self
  | reaction :: rest => self' <- react self reaction ;; react_all self' rest
  end.

(** [PullRequest.__init__]: the fetched pull request, its labels and its
    reactions are arguments. *)
Definition PullRequest_init (repo : Repository) (p : GhPull)
  (ls : list string) (reactions : list Reaction) : result PullRequest :=
  react_all (fresh repo p ls) reactions.

(** ** Elapsed time *)

(** [timedelta.seconds] of [later - earlier]: the seconds field of the
    normalised difference, between 0 and 86399. *)
Definition delta_seconds (later earlier : Z) : Z :=
  ((later - earlier) mod 86400)%Z.

(** Lines 151-152: the loop leaves the date of the last commit iterated;
    with no commit the variable is never bound. *)
Definition last_commit_date (dates : list Z) : result Z :=
  match rev dates with
  | [] => Raise UnboundLocalError
  | d :: _ => Ok d
  end.

Definition hoursSinceLastCommit (now : Z) (self : PullRequest) : result Q :=
  commit_date <- last_commit_date (commit_dates (pr self)) ;;
  Ok (inject_Z (delta_seconds now commit_date) / inject_Z 360)%Q.

Definition hoursSincePullOpened (now : Z) (self : PullRequest) : Q :=
  (inject_Z (delta_seconds now (created_at (pr self))) / inject_Z 360)%Q.

Definition Qltb (x y : Q) : bool := negb (Qle_bool y x).

Definition hoursSinceLastUpdate (now : Z) (self : PullRequest) : result Q :=
  let hoursOpen := hoursSincePullOpened now self in
  hoursSinceCommit <- hoursSinceLastCommit now self ;;
  if Qltb hoursOpen hoursSinceCommit then Ok hoursOpen
  else Ok hoursSinceCommit.

(** [PullRequest.shouldClose].  The method is reached only on a repository
    with a policy; on [False] the membership test raises. *)
Definition shouldClose (now : Z) (self : PullRequest) : result bool :=
  match rules (repository self) with
  | None => Raise TypeError
  | Some rl =>
      match timeout rl with
      | Some t =>
          h <- hoursSinceLastCommit now self ;;
          if Qle_bool t h then Ok true else Ok false
      | None => Ok false
      end
  end.

Definition isBlocked (self : PullRequest) : bool :=
  let ls := map lower (labels self) in
  if py_in "wip" ls then true
  else if py_in "dontmerge" ls then true
  else false.

(** ** Consensus *)

Definition isMergeable (self : PullRequest) : bool :=
  match mergeable (pr self) with
  | Some true => true
  | _ => false
  end.

Definition hasQuorum (rl : Rules) (self : PullRequest) : bool :=
  match quorum rl with
  | Some q => if (Z.of_nat (List.length (users self)) <? q)%Z then false else true
  | None => true
  end.

Definition hasVotes (rl : Rules) (self : PullRequest) : bool :=
  match threshold rl with
  | Some th =>
      let total := (List.length (yes self) + List.length (no self))%nat in
      if (total <=? 0)%nat then false
      else
        let ratio :=
          (inject_Z (Z.of_nat (List.length (yes self)))
           / inject_Z (Z.of_nat total))%Q in
        if Qltb ratio th then false else true
  | None => true
  end.

Definition hasAged (rl : Rules) (now : Z) (self : PullRequest)
  : result bool :=
  match mergedelay rl with
  | Some d =>
      hours <- hoursSinceLastUpdate now self ;;
      if Qltb hours d then Ok false else Ok true
  | None => Ok true
  end.

Definition Consensus_validate (rl : Rules) (now : Z) (self : PullRequest)
  : result bool :=
  if isBlocked self then Ok false
  else if negb (isMergeable self) then Ok false
  else if negb (hasQuorum rl self) then Ok false
  else if negb (hasVotes rl self) then Ok false
  else
    aged <- hasAged rl now self ;;
    if negb aged then Ok false else Ok true.

(** [PullRequest.validate]: [getConsensus()] wraps the repository's rules. *)
Definition PullRequest_validate (now : Z) (self : PullRequest)
  : result bool :=
  match rules (repository self) with
  | None => Ok false
  | Some rl => Consensus_validate rl now self
  end.

(** ** The vote table of the report *)

(** The line break of the format strings. *)
Definition nl : string := String (ascii_of_nat 10) EmptyString.

(** Line 229. *)
Definition table_header : string :=
  "| User | Yes | No | Abstain |" ++ nl ++ "|--------|-----|----|----|".

Definition check_mark : string := "✔".

(** Lines 231-242: the three cells of a voter. *)
Definition yes_cell (self : PullRequest) (user : string) : string :=
  if py_in user (yes self) then check_mark else "   ".

Definition no_cell (self : PullRequest) (user : string) : string :=
  if py_in user (no self) then check_mark else "  ".

Definition abstain_cell (self : PullRequest) (user : string) : string :=
  if py_in user (abstain self) then check_mark else "  ".

(** Line 244. *)
Definition user_label (user : string) : string :=
  "[" ++ user ++ "](https://github.com/" ++ user ++ ")".

(** Line 245. *)
Definition vote_row (self : PullRequest) (user : string) : string :=
  "| " ++ user_label user ++ " | " ++ yes_cell self user ++ " | "
  ++ no_cell self user ++ " | " ++ abstain_cell self user ++ " |".

(** [PullRequest.buildVoteTable]: the loop of lines 230-246 appends one
    row per element of [users]. *)
Definition buildVoteTable (self : PullRequest) : string :=
  fold_left (fun table user => (table ++ nl ++ vote_row self user)%string)
    (users self) table_header.

(** ** The memoised contributor list *)

(** [Repository.contributors] as the method keeps it: [False] ([None])
    until the first call, then the list built from [iter_contributors()];
    [fetched] counts the calls of [iter_contributors()]. *)
Record ContributorCache : Type := mkContributorCache {
  cached  : option (list string);
  fetched : nat
}.

(** [Repository.isContributor] with its cache (lines 71-75).  [listing] is
    what [iter_contributors()] returns; [not self.contributors] holds for
    [False] and for the empty list. *)
Definition isContributor_cached (listing : list string)
  (st : ContributorCache) (username : string) : bool * ContributorCache :=
  match cached st with
  | Some (c :: cs) => (py_in username (c :: cs), st)
  | _ => (py_in username listing,
          mkContributorCache (Some listing) (S (fetched st)))
  end.

(** Successive calls on one repository object. *)
Fixpoint isContributor_calls (listing : list string)
  (st : ContributorCache) (usernames : list string)
  : list bool * ContributorCache :=
  match usernames with
  | [] => ([], st)
  | u :: rest =>
      let (b, st') := isContributor_cached listing st u in
      let (bs, st'') := isContributor_calls listing st' rest in
      (b :: bs, st'')
  end.

(** ** Python's true division

    [a / b] on two ints is a float: the binary64 number nearest to the exact
    quotient, ties going to the even significand.  The functions below
    compute the binary64 number nearest to a rational, as a rational, for
    values below the overflow threshold. *)

(** [2 ^ e] for an integer exponent. *)
Definition pow2 (e : Z) : Q := (2 ^ e)%Q.

(** The integer nearest to [q], the even one of the two at a tie. *)
Definition round_half_even (q : Q) : Z :=
  let f := Qfloor q in
  match Qcompare (q - inject_Z f) (1 # 2) with
  | Lt => f
  | Gt => (f + 1)%Z
  | Eq => if Z.even f then f else (f + 1)%Z
  end.

(** The exponent [k] with [2 ^ k <= x < 2 ^ (k + 1)], for [0 < x]. *)
Definition binade (x : Q) : Z :=
  let k := (Z.log2 (Qnum x) - Z.log2 (Zpos (Qden x)))%Z in
  if Qle_bool (pow2 k) x then k else (k - 1)%Z.

(** Rounding of a positive number: 53 significant bits, and multiples of
    [2 ^ -1074] below [2 ^ -1022]. *)
Definition binary64_pos (x : Q) : Q :=
  let e := Z.max (binade x - 52) (-1074) in
  (inject_Z (round_half_even (x * pow2 (- e))) * pow2 e)%Q.

(** Rounding to binary64. *)
Definition binary64 (x : Q) : Q :=
  match (x ?= 0)%Q with
  | Eq => 0
  | Gt => binary64_pos x
  | Lt => - binary64_pos (- x)
  end.

(** [a / b] for two lengths.  With [b = 0] Python raises
    [ZeroDivisionError]; the one call, on line 306, is behind the test of
    line 304. *)
Definition py_truediv (a b : nat) : Q :=
  binary64 (inject_Z (Z.of_nat a) / inject_Z (Z.of_nat b)).

(** [Consensus.hasVotes] (lines 301-309) with the two floats of line 307 as
    Python has them: the quotient of line 306, rounded, and the threshold of
    the policy, which is the float nearest to the number written there
    (itself, when that number is a float).  [hasVotes] above compares the
    exact quotient with the number written; the two answers differ only when
    rounding changes the order of the two. *)
Definition hasVotes_binary64 (rl : Rules) (self : PullRequest) : bool :=
  match threshold rl with
  | Some th =>
      let total := (List.length (yes self) + List.length (no self))%nat in
      if (total <=? 0)%nat then false
      else
        let ratio := py_truediv (List.length (yes self)) total in
        if Qltb ratio (binary64 th) then false else true
  | None => true
  end.

(** * Vocabulary of the statements *)

Definition cnt (u : string) (l : list string) : nat :=
  count_occ string_dec l u.

(** The contents of the fixed table of lines 136-141. *)
Definition mapped (c : string) : bool :=
  String.eqb c "+1" || String.eqb c "-1" || String.eqb c "confused".

(** A voter that the contributor and whitelist filters let through. *)
Definition eligible (repo : Repository) (rl : Rules) (u : string) : bool :=
  negb (enabled (contributors_only rl) && negb (isContributor repo u))
  && negb match whitelist rl with
          | Some wl => negb (py_in u wl)
          | None => false
          end.

(** Occurrences of [u] over the three vote lists. *)
Definition votes_cnt (u : string) (self : PullRequest) : nat :=
  (cnt u (yes self) + cnt u (no self) + cnt u (abstain self))%nat.

(** No voter is listed twice, no voter is both listed and struck out, and,
    when [pd] holds (the policy enables [prevent_doubles]), a voter has at
    most as many entries over the three vote lists as in the voter list. *)
Definition tally_inv (pd : bool) (self : PullRequest) : Prop :=
  forall u,
    (cnt u (users self) <= 1)%nat
    /\ (cnt u (users self) = 0%nat \/ cnt u (doubles self) = 0%nat)
    /\ (pd = true -> (votes_cnt u self <= cnt u (users self))%nat).

(** Number of events of [u] whose content is in the table. *)
Definition votes_of (u : string) (rs : list Reaction) : nat :=
  List.length
    (filter (fun r => String.eqb (login r) u && mapped (content r)) rs).

(** The three situations of a voter: never recorded, recorded once, struck
    out. *)
Definition absent (u : string) (self : PullRequest) : Prop :=
  cnt u (users self) = 0%nat /\ cnt u (doubles self) = 0%nat
  /\ votes_cnt u self = 0%nat.

Definition counted (u : string) (self : PullRequest) : Prop :=
  cnt u (users self) = 1%nat /\ cnt u (doubles self) = 0%nat
  /\ (votes_cnt u self <= 1)%nat.

Definition struck (u : string) (self : PullRequest) : Prop :=
  cnt u (users self) = 0%nat /\ (0 < cnt u (doubles self))%nat
  /\ votes_cnt u self = 0%nat.

(** A policy whose only key is [prevent_doubles: true]. *)
Definition rules_prevent_doubles : Rules :=
  mkRules None None None (Some true) None None None None.

Definition alice_bob_alice : list Reaction :=
  [mkReaction "alice" "+1"; mkReaction "bob" "-1"; mkReaction "alice" "-1"].

Definition in_at_most_one (u : string) (self : PullRequest) : Prop :=
  ~ (In u (yes self) /\ In u (no self))
  /\ ~ (In u (yes self) /\ In u (abstain self))
  /\ ~ (In u (no self) /\ In u (abstain self)).

Definition never_both (u : string) (self : PullRequest) : Prop :=
  ~ (In u (users self) /\ In u (doubles self)).

(** The invariant as the specification words it, for every policy. *)
Definition tally_invariant_every_policy : Prop :=
  forall repo p ls rs self,
    PullRequest_init repo p ls rs = Ok self ->
    forall u, in_at_most_one u self /\ never_both u self.

Definition alice_twice : list Reaction :=
  [mkReaction "alice" "+1"; mkReaction "alice" "-1"].

Definition alice_then_heart : list Reaction :=
  [mkReaction "alice" "+1"; mkReaction "alice" "heart"].

(** A policy whose only key is [collaborators_only: true]. *)
Definition rules_collaborators_only : Rules :=
  mkRules (Some true) None None None None None None None.

(** A policy whose only key is [mergedelay]. *)
Definition rules_mergedelay (d : Q) : Rules :=
  mkRules None None None None None None (Some d) None.

(** A pull request opened [opened] seconds and last committed to
    [committed] seconds before [now]. *)
Definition aged_pull (repo : Repository) (now opened committed : Z)
  : PullRequest :=
  mkPullRequest repo
    (mkGhPull (Some true) (now - opened) [(now - committed)%Z])
    [] [] [] [] [] [].

(** A policy whose only key is [timeout]. *)
Definition rules_timeout (t : Q) : Rules :=
  mkRules None None None None None None None (Some t).

Definition votes_total (self : PullRequest) : nat :=
  (List.length (yes self) + List.length (no self))%nat.

(** A policy whose only key is [threshold]. *)
Definition rules_threshold (th : Q) : Rules :=
  mkRules None None None None None (Some th) None None.

(** A pull request with the given [yes] and [no] lists. *)
Definition with_votes (self : PullRequest) (y n : list string)
  : PullRequest :=
  set_votes self y n (abstain self) (users self) (doubles self).

(** Quorum 2, threshold 1/2 and merge delay 5. *)
Definition rules_example : Rules :=
  mkRules None None None None (Some 2%Z) (Some (1 # 2)) (Some 5) None.

(** Two yes votes, mergeable, opened 36000 s and last committed to 7200 s
    before [now], with the given labels. *)
Definition voted_pull (now : Z) (ls : list string) : PullRequest :=
  mkPullRequest (mkRepository (Some rules_example) [])
    (mkGhPull (Some true) (now - 36000) [(now - 7200)%Z])
    ls ["alice"; "bob"] [] [] ["alice"; "bob"] [].

(** A pull request without any commit: the age criterion cannot be
    computed on it. *)
Definition no_commit_pull (repo : Repository) : PullRequest :=
  mkPullRequest repo (mkGhPull (Some true) 0 []) [] [] [] [] [] [].

(** A voter that occurs in one of the five lists. *)
Definition recorded (u : string) (self : PullRequest) : Prop :=
  In u (yes self) \/ In u (no self) \/ In u (abstain self)
  \/ In u (users self) \/ In u (doubles self).

(** The logins of the reactions with content [c] that pass the filters. *)
Definition votes_for (repo : Repository) (rl : Rules) (c : string)
  (rs : list Reaction) : list string :=
  map login
    (filter (fun r => eligible repo rl (login r) && String.eqb (content r) c)
       rs).

(** The voters of the reactions of the table that pass the filters, each
    once, in the order of their first reaction. *)
Definition voters_of (repo : Repository) (rl : Rules) (rs : list Reaction)
  (us : list string) : list string :=
  fold_left (fun acc u => add_user u acc)
    (map login
       (filter (fun r => eligible repo rl (login r) && mapped (content r))
          rs))
    us.

(** Number of events of [u], whatever their content. *)
Definition events_of (u : string) (rs : list Reaction) : nat :=
  List.length (filter (fun r => String.eqb (login r) u) rs).

(** A voter is listed exactly when it has an entry in a vote list, and is
    struck out at most once. *)
Definition tally_inv_union (self : PullRequest) : Prop :=
  forall u,
    (cnt u (users self) = 0%nat <-> votes_cnt u self = 0%nat)
    /\ (cnt u (doubles self) <= 1)%nat.

(** The quotient that [hasVotes] compares with the threshold. *)
Definition ratio (y t : nat) : Q :=
  (inject_Z (Z.of_nat y) / inject_Z (Z.of_nat t))%Q.

(** The same pull request with another list of commit dates. *)
Definition with_commits (self : PullRequest) (dates : list Z) : PullRequest :=
  mkPullRequest (repository self)
    (mkGhPull (mergeable (pr self)) (created_at (pr self)) dates)
    (labels self) (yes self) (no self) (abstain self) (users self)
    (doubles self).

(** The same pull request with other labels. *)
Definition with_labels (self : PullRequest) (ls : list string) : PullRequest :=
  mkPullRequest (repository self) (pr self) ls (yes self) (no self)
    (abstain self) (users self) (doubles self).

(** The rows of the given voters, each after a line break. *)
Definition rows_of (self : PullRequest) (us : list string) : string :=
  fold_right (fun u acc => (nl ++ vote_row self u ++ acc)%string)
    EmptyString us.

(** The cache before the first call. *)
Definition cache_init : ContributorCache := mkContributorCache None 0.

(** The float [0.1]: the binary64 number nearest to one tenth, a little
    above it. *)
Definition float_0_1 : Q := 3602879701896397 # 36028797018963968.

Definition nine_voters : list string :=
  ["b1"; "b2"; "b3"; "b4"; "b5"; "b6"; "b7"; "b8"; "b9"].

(** The elements of a list, each once, in the order of their first
    occurrence. *)
Fixpoint first_occurrences (l : list string) : list string :=
  match l with
  | [] => []
  | x :: l' => x :: remove string_dec x (first_occurrences l')
  end.

(** A policy with both voter filters, a repository with two contributors,
    and three voters of whom only bob passes both filters. *)
Definition rules_filtered : Rules :=
  mkRules None (Some true) (Some ["alice"; "bob"]) None None None None None.

Definition repo_filtered : Repository :=
  mkRepository (Some rules_filtered) ["bob"; "carol"].

Definition alice_bob_carol : list Reaction :=
  [mkReaction "alice" "+1"; mkReaction "bob" "-1"; mkReaction "carol" "+1"].

(** * Properties *)

(** ** Counting occurrences *)

Lemma cnt_nil u : cnt u [] = 0%nat.
Proof. reflexivity. Qed.

Lemma cnt_app u l l' : cnt u (l ++ l') = (cnt u l + cnt u l')%nat.
Proof. unfold cnt. apply count_occ_app. Qed.

Lemma cnt_one_same u : cnt u [u] = 1%nat.
Proof. unfold cnt. simpl. destruct (string_dec u u); congruence. Qed.

Lemma cnt_one_other u v : v <> u -> cnt u [v] = 0%nat.
Proof. intros Hv. unfold cnt. simpl. destruct (string_dec v u); congruence. Qed.

Lemma cnt_In u l : In u l <-> (0 < cnt u l)%nat.
Proof. unfold cnt. apply count_occ_In. Qed.

Lemma cnt_not_In u l : ~ In u l <-> cnt u l = 0%nat.
Proof. unfold cnt. apply count_occ_not_In. Qed.

Lemma py_in_In u l : py_in u l = true <-> In u l.
Proof.
  unfold py_in. rewrite existsb_exists. split.
  - intros [x [Hx Heq]]. apply String.eqb_eq in Heq. now subst.
  - intros Hin. exists u. split; [assumption | apply String.eqb_refl].
Qed.

Lemma py_in_true_cnt u l : py_in u l = true -> (0 < cnt u l)%nat.
Proof. intros H. apply cnt_In, py_in_In, H. Qed.

Lemma py_in_false_cnt u l : py_in u l = false -> cnt u l = 0%nat.
Proof.
  intros H. apply cnt_not_In. intros Hin.
  apply py_in_In in Hin. congruence.
Qed.

Lemma cnt_remove_same u l : cnt u (py_remove u l) = Nat.pred (cnt u l).
Proof.
  induction l as [|y l IH]; [reflexivity|].
  simpl. destruct (String.eqb_spec u y) as [->|Hne].
  - unfold cnt. simpl. destruct (string_dec y y); [reflexivity | congruence].
  - unfold cnt in *. simpl.
    destruct (string_dec y u); [congruence | exact IH].
Qed.

Lemma cnt_remove_other u v l : v <> u -> cnt u (py_remove v l) = cnt u l.
Proof.
  intros Hv. induction l as [|y l IH]; [reflexivity|].
  simpl. destruct (String.eqb_spec v y) as [->|Hne].
  - unfold cnt. simpl. destruct (string_dec y u); [congruence | reflexivity].
  - unfold cnt in *. simpl. destruct (string_dec y u); now rewrite IH.
Qed.

Lemma cnt_guarded_remove_same u l :
  cnt u (if py_in u l then py_remove u l else l) = Nat.pred (cnt u l).
Proof.
  destruct (py_in u l) eqn:E.
  - apply cnt_remove_same.
  - now rewrite (py_in_false_cnt _ _ E).
Qed.

Lemma cnt_guarded_remove_other u v l :
  v <> u -> cnt u (if py_in v l then py_remove v l else l) = cnt u l.
Proof.
  intros Hv. destruct (py_in v l); [now apply cnt_remove_other | reflexivity].
Qed.

Lemma cnt_add_user_same u l :
  cnt u (add_user u l) = Nat.max 1 (cnt u l).
Proof.
  unfold add_user. destruct (py_in u l) eqn:E.
  - apply py_in_true_cnt in E. lia.
  - rewrite cnt_app, cnt_one_same, (py_in_false_cnt _ _ E). reflexivity.
Qed.

Lemma cnt_add_user_other u v l : v <> u -> cnt u (add_user v l) = cnt u l.
Proof.
  intros Hv. unfold add_user. destruct (py_in v l); [reflexivity|].
  rewrite cnt_app, (cnt_one_other _ _ Hv). lia.
Qed.

(** ** One iteration of the loop, case by case *)

Lemma react_cases self r self' :
  react self r = Ok self' ->
  self' = self
  \/ (exists rl, rules (repository self) = Some rl
        /\ enabled (prevent_doubles rl) = true
        /\ py_in (login r) (users self) = true
        /\ py_in (login r) (doubles self) = false
        /\ self' = exclude_double self (login r))
  \/ (exists rl, rules (repository self) = Some rl
        /\ py_in (login r) (doubles self) = false
        /\ (enabled (prevent_doubles rl) = true ->
            py_in (login r) (users self) = false)
        /\ self' = record_vote self (login r) (content r)).
Proof.
  unfold react. intros H.
  destruct (py_in (login r) (doubles self)) eqn:Hd.
  { left. congruence. }
  destruct (rules (repository self)) as [rl|] eqn:Hr; [|discriminate].
  destruct (enabled (collaborators_only rl)); [discriminate|].
  destruct (enabled (contributors_only rl)
            && negb (isContributor (repository self) (login r))).
  { left. congruence. }
  destruct (match whitelist rl with
            | Some wl => negb (py_in (login r) wl)
            | None => false
            end).
  { left. congruence. }
  destruct (enabled (prevent_doubles rl)) eqn:Hp; simpl in H.
  - destruct (py_in (login r) (users self)) eqn:Hu.
    + right. left. exists rl. repeat split; congruence.
    + right. right. exists rl. repeat split; congruence.
  - right. right. exists rl. repeat split; congruence.
Qed.

Lemma record_vote_repository self u c :
  repository (record_vote self u c) = repository self.
Proof.
  unfold record_vote.
  destruct (String.eqb c "+1"); [reflexivity|].
  destruct (String.eqb c "-1"); [reflexivity|].
  destruct (String.eqb c "confused"); reflexivity.
Qed.

Lemma react_repository self r self' :
  react self r = Ok self' -> repository self' = repository self.
Proof.
  intros H. destruct (react_cases _ _ _ H) as [->|[(rl & _ & _ & _ & _ & ->)|
    (rl & _ & _ & _ & ->)]].
  - reflexivity.
  - reflexivity.
  - apply record_vote_repository.
Qed.

Lemma react_all_repository rs : forall self self',
  react_all self rs = Ok self' -> repository self' = repository self.
Proof.
  induction rs as [|r rs IH]; simpl; intros self self' H.
  - congruence.
  - destruct (react self r) as [s1|e] eqn:E; simpl in H; [|discriminate].
    rewrite (IH _ _ H). now apply react_repository in E.
Qed.

(** Effect of [record_vote] on the occurrences of the voter and of others. *)
Lemma record_vote_same self u c :
  votes_cnt u (record_vote self u c)
  = (votes_cnt u self + if mapped c then 1 else 0)%nat
  /\ cnt u (users (record_vote self u c))
     = (if mapped c then Nat.max 1 (cnt u (users self))
        else cnt u (users self))
  /\ doubles (record_vote self u c) = doubles self.
Proof.
  unfold record_vote, mapped, votes_cnt.
  destruct (String.eqb c "+1"); simpl.
  { rewrite cnt_app, cnt_one_same, cnt_add_user_same. repeat split; lia. }
  destruct (String.eqb c "-1"); simpl.
  { rewrite cnt_app, cnt_one_same, cnt_add_user_same. repeat split; lia. }
  destruct (String.eqb c "confused"); simpl.
  { rewrite cnt_app, cnt_one_same, cnt_add_user_same. repeat split; lia. }
  repeat split; lia.
Qed.

Lemma record_vote_other self u v c :
  v <> u ->
  cnt u (yes (record_vote self v c)) = cnt u (yes self)
  /\ cnt u (no (record_vote self v c)) = cnt u (no self)
  /\ cnt u (abstain (record_vote self v c)) = cnt u (abstain self)
  /\ cnt u (users (record_vote self v c)) = cnt u (users self)
  /\ cnt u (doubles (record_vote self v c)) = cnt u (doubles self).
Proof.
  intros Hv. unfold record_vote.
  destruct (String.eqb c "+1"); simpl.
  { rewrite cnt_app, (cnt_one_other _ _ Hv), (cnt_add_user_other _ _ _ Hv).
    repeat split; lia. }
  destruct (String.eqb c "-1"); simpl.
  { rewrite cnt_app, (cnt_one_other _ _ Hv), (cnt_add_user_other _ _ _ Hv).
    repeat split; lia. }
  destruct (String.eqb c "confused"); simpl.
  { rewrite cnt_app, (cnt_one_other _ _ Hv), (cnt_add_user_other _ _ _ Hv).
    repeat split; lia. }
  repeat split; reflexivity.
Qed.

Lemma exclude_double_same self u :
  cnt u (yes (exclude_double self u)) = Nat.pred (cnt u (yes self))
  /\ cnt u (no (exclude_double self u)) = Nat.pred (cnt u (no self))
  /\ cnt u (abstain (exclude_double self u)) = Nat.pred (cnt u (abstain self))
  /\ cnt u (users (exclude_double self u)) = Nat.pred (cnt u (users self))
  /\ cnt u (doubles (exclude_double self u)) = S (cnt u (doubles self)).
Proof.
  unfold exclude_double. simpl.
  rewrite !cnt_guarded_remove_same, cnt_remove_same, cnt_app, cnt_one_same.
  repeat split; lia.
Qed.

Lemma exclude_double_other self u v :
  v <> u ->
  cnt u (yes (exclude_double self v)) = cnt u (yes self)
  /\ cnt u (no (exclude_double self v)) = cnt u (no self)
  /\ cnt u (abstain (exclude_double self v)) = cnt u (abstain self)
  /\ cnt u (users (exclude_double self v)) = cnt u (users self)
  /\ cnt u (doubles (exclude_double self v)) = cnt u (doubles self).
Proof.
  intros Hv. unfold exclude_double. simpl.
  rewrite !(cnt_guarded_remove_other _ _ _ Hv), (cnt_remove_other _ _ _ Hv),
    cnt_app, (cnt_one_other _ _ Hv).
  repeat split; lia.
Qed.

(** An event of another voter leaves the occurrences of [u] as they are. *)
Lemma react_other self r self' u :
  react self r = Ok self' -> login r <> u ->
  cnt u (yes self') = cnt u (yes self)
  /\ cnt u (no self') = cnt u (no self)
  /\ cnt u (abstain self') = cnt u (abstain self)
  /\ cnt u (users self') = cnt u (users self)
  /\ cnt u (doubles self') = cnt u (doubles self).
Proof.
  intros H Hne.
  destruct (react_cases _ _ _ H) as [->|[(rl & _ & _ & _ & _ & ->)|
    (rl & _ & _ & _ & ->)]].
  - repeat split; reflexivity.
  - now apply exclude_double_other.
  - now apply record_vote_other.
Qed.

(** ** The invariant of the loop *)

Lemma tally_inv_fresh pd repo p ls : tally_inv pd (fresh repo p ls).
Proof.
  intros u. unfold votes_cnt, cnt. simpl. repeat split; auto with arith.
Qed.

Lemma react_inv self r self' rl :
  rules (repository self) = Some rl ->
  react self r = Ok self' ->
  tally_inv (enabled (prevent_doubles rl)) self ->
  tally_inv (enabled (prevent_doubles rl)) self'.
Proof.
  intros Hr H Hinv u. specialize (Hinv u).
  destruct Hinv as (Hu & Hud & Hv).
  destruct (string_dec (login r) u) as [<-|Hne].
  - destruct (react_cases _ _ _ H) as [->|[(rl' & Hr' & Hp & Hin & Hd & ->)|
      (rl' & Hr' & Hd & Hp & ->)]].
    + repeat split; assumption.
    + assert (rl' = rl) by congruence. subst rl'.
      destruct (exclude_double_same self (login r))
        as (Ey & En & Ea & Eu & Ed).
      unfold votes_cnt in *. rewrite Ey, En, Ea, Eu, Ed.
      specialize (Hv Hp). repeat split; lia.
    + assert (rl' = rl) by congruence. subst rl'.
      destruct (record_vote_same self (login r) (content r))
        as (Ev & Eu & Ed).
      rewrite Ev, Eu, Ed. apply py_in_false_cnt in Hd.
      repeat split.
      * destruct (mapped (content r)); lia.
      * now right.
      * intros Hp'. specialize (Hp Hp'). apply py_in_false_cnt in Hp.
        specialize (Hv Hp'). destruct (mapped (content r)); lia.
  - destruct (react_other _ _ _ u H Hne) as (Ey & En & Ea & Eu & Ed).
    unfold votes_cnt in *. rewrite Ey, En, Ea, Eu, Ed.
    repeat split; assumption.
Qed.

Lemma react_all_inv rs : forall self self' rl,
  rules (repository self) = Some rl ->
  react_all self rs = Ok self' ->
  tally_inv (enabled (prevent_doubles rl)) self ->
  tally_inv (enabled (prevent_doubles rl)) self'.
Proof.
  induction rs as [|r rs IH]; simpl; intros self self' rl Hr H Hinv.
  - inversion H. now subst.
  - destruct (react self r) as [s1|e] eqn:E; simpl in H; [|discriminate].
    apply (IH s1 self' rl).
    + rewrite (react_repository _ _ _ E). exact Hr.
    + exact H.
    + exact (react_inv _ _ _ _ Hr E Hinv).
Qed.

(** On [False] for the rules only an empty reaction list goes through. *)
Lemma react_all_no_rules rs : forall self self',
  rules (repository self) = None ->
  doubles self = [] ->
  react_all self rs = Ok self' -> rs = [] /\ self' = self.
Proof.
  destruct rs as [|r rs]; simpl; intros self self' Hr Hd H.
  - split; congruence.
  - unfold react in H. rewrite Hd, Hr in H. simpl in H. discriminate.
Qed.

(** The loop runs to its end whenever the policy is a dictionary that does
    not enable [collaborators_only]. *)
Lemma react_total self r rl :
  rules (repository self) = Some rl ->
  enabled (collaborators_only rl) = false ->
  exists self', react self r = Ok self'.
Proof.
  intros Hr Hc. unfold react. rewrite Hr, Hc.
  destruct (py_in (login r) (doubles self)); [eauto|].
  destruct (enabled (contributors_only rl)
            && negb (isContributor (repository self) (login r))); [eauto|].
  destruct (match whitelist rl with
            | Some wl => negb (py_in (login r) wl)
            | None => false
            end); [eauto|].
  destruct (enabled (prevent_doubles rl) && py_in (login r) (users self));
    eauto.
Qed.

Lemma react_all_total rs : forall self rl,
  rules (repository self) = Some rl ->
  enabled (collaborators_only rl) = false ->
  exists self', react_all self rs = Ok self'.
Proof.
  induction rs as [|r rs IH]; simpl; intros self rl Hr Hc.
  - eauto.
  - destruct (react_total self r rl Hr Hc) as [s1 E]. rewrite E. simpl.
    apply (IH s1 rl); [|exact Hc].
    rewrite (react_repository _ _ _ E). exact Hr.
Qed.

(** ** The course of one voter under [prevent_doubles] *)

Lemma cnt_py_in_true u l : (0 < cnt u l)%nat -> py_in u l = true.
Proof. intros H. apply py_in_In, cnt_In, H. Qed.

Lemma cnt_py_in_false u l : cnt u l = 0%nat -> py_in u l = false.
Proof.
  intros H. destruct (py_in u l) eqn:E; [|reflexivity].
  apply py_in_true_cnt in E. lia.
Qed.

Section OneVoter.

Variable repo : Repository.
Variable rl : Rules.
Variable u : string.

Hypothesis Hrules : rules repo = Some rl.
Hypothesis Hcollab : enabled (collaborators_only rl) = false.
Hypothesis Hprevent : enabled (prevent_doubles rl) = true.
Hypothesis Helig : eligible repo rl u = true.

(** Past the filters, an event of [u] either strikes [u] out or is looked
    up in the table. *)
Lemma react_eligible self r :
  repository self = repo -> login r = u ->
  py_in u (doubles self) = false ->
  react self r
  = if py_in u (users self) then Ok (exclude_double self u)
    else Ok (record_vote self u (content r)).
Proof.
  intros Hrepo Hl Hd. unfold react. rewrite Hl, Hd, Hrepo, Hrules, Hcollab.
  unfold eligible in Helig. apply andb_prop in Helig as [H1 H2].
  apply negb_true_iff in H1. apply negb_true_iff in H2.
  rewrite H1, H2, Hprevent. simpl.
  destruct (py_in u (users self)); reflexivity.
Qed.

Lemma react_struck self r :
  struck u self -> login r = u -> react self r = Ok self.
Proof.
  intros (_ & Hd & _) Hl. unfold react. rewrite Hl.
  now rewrite (cnt_py_in_true _ _ Hd).
Qed.

Lemma react_counted self r :
  repository self = repo -> counted u self -> login r = u ->
  react self r = Ok (exclude_double self u)
  /\ struck u (exclude_double self u).
Proof.
  intros Hrepo (Hu & Hd & Hv) Hl. split.
  - rewrite (react_eligible self r Hrepo Hl (cnt_py_in_false _ _ Hd)).
    rewrite cnt_py_in_true; [reflexivity | lia].
  - destruct (exclude_double_same self u) as (Ey & En & Ea & Eu & Ed).
    unfold struck, votes_cnt in *. rewrite Ey, En, Ea, Eu, Ed.
    repeat split; lia.
Qed.

Lemma react_absent self r :
  repository self = repo -> absent u self -> login r = u ->
  react self r = Ok (record_vote self u (content r))
  /\ if mapped (content r)
     then counted u (record_vote self u (content r))
     else absent u (record_vote self u (content r)).
Proof.
  intros Hrepo (Hu & Hd & Hv) Hl. split.
  - rewrite (react_eligible self r Hrepo Hl (cnt_py_in_false _ _ Hd)).
    now rewrite (cnt_py_in_false _ _ Hu).
  - destruct (record_vote_same self u (content r)) as (Ev & Eu & Ed).
    unfold counted, absent. rewrite Ev, Eu, Ed.
    destruct (mapped (content r)); repeat split; lia.
Qed.

(** Events of other voters do not move [u]. *)
Lemma react_other_phase self r self' :
  react self r = Ok self' -> login r <> u ->
  (absent u self -> absent u self')
  /\ (counted u self -> counted u self')
  /\ (struck u self -> struck u self').
Proof.
  intros H Hne.
  destruct (react_other _ _ _ u H Hne) as (Ey & En & Ea & Eu & Ed).
  unfold absent, counted, struck, votes_cnt.
  rewrite Ey, En, Ea, Eu, Ed. tauto.
Qed.

Lemma votes_of_cons r rs :
  votes_of u (r :: rs)
  = ((if String.eqb (login r) u && mapped (content r) then 1 else 0)
     + votes_of u rs)%nat.
Proof.
  unfold votes_of. simpl.
  destruct (String.eqb (login r) u && mapped (content r)); reflexivity.
Qed.

(** A struck voter stays struck; a counted voter is struck by the next
    vote; an absent voter is struck by two votes. *)
Lemma react_all_phases rs : forall self,
  repository self = repo ->
  (struck u self ->
   exists self', react_all self rs = Ok self' /\ struck u self')
  /\ (counted u self -> (1 <= votes_of u rs)%nat ->
      exists self', react_all self rs = Ok self' /\ struck u self')
  /\ (absent u self -> (2 <= votes_of u rs)%nat ->
      exists self', react_all self rs = Ok self' /\ struck u self').
Proof.
  induction rs as [|r rs IH]; intros self Hrepo.
  - simpl. repeat split.
    + intros Hs. eauto.
    + unfold votes_of. simpl. lia.
    + unfold votes_of. simpl. lia.
  - assert (Hr : rules (repository self) = Some rl) by now rewrite Hrepo.
    destruct (react_total self r rl Hr Hcollab) as [s1 E].
    assert (Hrepo1 : repository s1 = repo)
      by now rewrite (react_repository _ _ _ E).
    destruct (IH s1 Hrepo1) as (IHs & IHc & IHa).
    rewrite votes_of_cons. simpl. rewrite E. simpl.
    destruct (String.eqb_spec (login r) u) as [Hl|Hne].
    + repeat split.
      * intros Hs. rewrite (react_struck self r Hs Hl) in E.
        inversion E. subst s1. now apply IHs.
      * intros Hc _. destruct (react_counted self r Hrepo Hc Hl) as [E' Hs].
        rewrite E' in E. inversion E. subst s1. now apply IHs.
      * intros Ha Hn. destruct (react_absent self r Hrepo Ha Hl) as [E' Hph].
        rewrite E' in E. inversion E. subst s1. simpl in Hn.
        destruct (mapped (content r)).
        -- apply IHc; [exact Hph | lia].
        -- apply IHa; [exact Hph | lia].
    + destruct (react_other_phase _ _ _ E Hne) as (Ta & Tc & Ts).
      simpl. repeat split.
      * intros Hs. apply IHs. now apply Ts.
      * intros Hc Hn. apply IHc; [now apply Tc | exact Hn].
      * intros Ha Hn. apply IHa; [now apply Ta | exact Hn].
Qed.

End OneVoter.

(** ** The double-vote rule *)

(** C1.  With [prevent_doubles] enabled (and the loop able to run, that is
    [collaborators_only] not enabled), a voter that passes the filters and
    casts two or more votes of the table ends in none of [yes], [no],
    [abstain], [users] and is in [doubles]; an event of a voter who is in
    [users] and not yet in [doubles] removes the voter from the vote lists
    and from [users] and appends it to [doubles]; and the reactions
    alice +1, bob -1, alice -1 give yes = [], no = [bob], users = [bob],
    doubles = [alice]. *)
Theorem double_vote_voids :
  (forall repo rl p ls rs u,
      rules repo = Some rl ->
      enabled (collaborators_only rl) = false ->
      enabled (prevent_doubles rl) = true ->
      eligible repo rl u = true ->
      (2 <= votes_of u rs)%nat ->
      exists self,
        PullRequest_init repo p ls rs = Ok self
        /\ ~ In u (yes self) /\ ~ In u (no self) /\ ~ In u (abstain self)
        /\ ~ In u (users self) /\ In u (doubles self))
  /\ (forall self r rl,
         rules (repository self) = Some rl ->
         enabled (collaborators_only rl) = false ->
         enabled (prevent_doubles rl) = true ->
         eligible (repository self) rl (login r) = true ->
         In (login r) (users self) ->
         ~ In (login r) (doubles self) ->
         react self r = Ok (exclude_double self (login r)))
  /\ (forall cs p ls,
         PullRequest_init (mkRepository (Some rules_prevent_doubles) cs) p ls
           alice_bob_alice
         = Ok (mkPullRequest (mkRepository (Some rules_prevent_doubles) cs)
                 p ls [] ["bob"] [] ["bob"] ["alice"])).
Proof.
  split; [|split].
  - intros repo rl p ls rs u Hr Hc Hp He Hn.
    destruct (react_all_phases repo rl u Hr Hc Hp He rs (fresh repo p ls)
                eq_refl) as (_ & _ & Ha).
    destruct Ha as (self & E & Hu & Hd & Hv).
    + unfold absent, votes_cnt, cnt. simpl. auto.
    + exact Hn.
    + exists self. unfold votes_cnt in Hv.
      split; [exact E|].
      repeat split; try (apply cnt_not_In; lia).
      apply cnt_In. exact Hd.
  - intros self r rl Hr Hc Hp He Hu Hd.
    rewrite (react_eligible (repository self) rl (login r) Hr Hc Hp He
               self r eq_refl eq_refl).
    + apply py_in_In in Hu. now rewrite Hu.
    + destruct (py_in (login r) (doubles self)) eqn:E; [|reflexivity].
      apply py_in_In in E. contradiction.
  - intros cs p ls. reflexivity.
Qed.

Lemma double_vote_voids_witness :
  rules (mkRepository (Some rules_prevent_doubles) []) =
    Some rules_prevent_doubles
  /\ (2 <= votes_of "alice" alice_bob_alice)%nat
  /\ exists self,
       PullRequest_init (mkRepository (Some rules_prevent_doubles) [])
         (mkGhPull (Some true) 0 [0%Z]) [] alice_bob_alice = Ok self
       /\ ~ In "alice" (yes self) /\ ~ In "alice" (no self)
       /\ ~ In "alice" (abstain self)
       /\ ~ In "alice" (users self) /\ In "alice" (doubles self).
Proof.
  split; [reflexivity|]. split; [vm_compute; apply le_n|].
  apply (proj1 double_vote_voids
           (mkRepository (Some rules_prevent_doubles) [])
           rules_prevent_doubles (mkGhPull (Some true) 0 [0%Z]) []
           alice_bob_alice "alice").
  - reflexivity.
  - reflexivity.
  - reflexivity.
  - reflexivity.
  - vm_compute. apply le_n.
Defined.

(** ** The tally invariant *)

(** C4, as stated, fails: without [prevent_doubles] the reactions
    alice +1, alice -1 put alice in both [yes] and [no]. *)
Lemma tally_invariant_counterexample : ~ tally_invariant_every_policy.
Proof.
  intros H.
  destruct (H (mkRepository (Some no_rules) []) (mkGhPull (Some true) 0 [0%Z])
              [] alice_twice _ eq_refl "alice") as [(Hyn & _) _].
  apply Hyn. simpl. auto.
Qed.

(** C4, amended.  Whenever the tally is built, no voter is in both [users]
    and [doubles], whatever the policy; and when the policy enables
    [prevent_doubles], every voter is in at most one of [yes], [no],
    [abstain]. *)
Theorem tally_invariant_amended repo p ls rs self :
  PullRequest_init repo p ls rs = Ok self ->
  (forall u, never_both u self)
  /\ (forall rl, rules repo = Some rl ->
                 enabled (prevent_doubles rl) = true ->
                 forall u, in_at_most_one u self).
Proof.
  unfold PullRequest_init. intros H.
  destruct (rules repo) as [rl|] eqn:Hr.
  - assert (Hinv : tally_inv (enabled (prevent_doubles rl)) self).
    { apply (react_all_inv rs (fresh repo p ls) self rl Hr H).
      apply tally_inv_fresh. }
    split.
    + intros u [Hu Hd]. destruct (Hinv u) as (_ & Hud & _).
      apply cnt_In in Hu. apply cnt_In in Hd. lia.
    + intros rl' Hrl' Hp u. assert (rl' = rl) by congruence. subst rl'.
      destruct (Hinv u) as (Hu & _ & Hv). specialize (Hv Hp).
      unfold votes_cnt in Hv. unfold in_at_most_one.
      rewrite !cnt_In. lia.
  - destruct (react_all_no_rules rs (fresh repo p ls) self Hr eq_refl H)
      as [_ ->].
    split.
    + intros u [Hu _]. exact Hu.
    + intros rl Hrl. discriminate.
Qed.

Lemma tally_invariant_amended_witness :
  (forall u,
      never_both u
        (mkPullRequest (mkRepository (Some rules_prevent_doubles) [])
           (mkGhPull (Some true) 0 [0%Z]) [] [] ["bob"] [] ["bob"] ["alice"]))
  /\ (forall rl,
         rules (mkRepository (Some rules_prevent_doubles) []) = Some rl ->
         enabled (prevent_doubles rl) = true ->
         forall u,
           in_at_most_one u
             (mkPullRequest (mkRepository (Some rules_prevent_doubles) [])
                (mkGhPull (Some true) 0 [0%Z]) [] [] ["bob"] [] ["bob"]
                ["alice"])).
Proof.
  apply (tally_invariant_amended
           (mkRepository (Some rules_prevent_doubles) [])
           (mkGhPull (Some true) 0 [0%Z]) [] alice_bob_alice).
  reflexivity.
Defined.

(** ** Reactions outside the table *)

(** An event whose content is not in the table changes nothing, except on
    the path of lines 123-134. *)
Lemma react_unmapped self r self' :
  mapped (content r) = false ->
  react self r = Ok self' ->
  self' = self
  \/ (exists rl, rules (repository self) = Some rl
        /\ enabled (prevent_doubles rl) = true
        /\ In (login r) (users self)
        /\ self' = exclude_double self (login r)).
Proof.
  intros Hm H.
  destruct (react_cases _ _ _ H) as [->|[(rl & Hr & Hp & Hu & _ & ->)|
    (rl & _ & _ & _ & ->)]].
  - now left.
  - right. exists rl. apply py_in_In in Hu. auto.
  - left. unfold mapped in Hm. unfold record_vote.
    apply orb_false_elim in Hm as [Hm H3].
    apply orb_false_elim in Hm as [H1 H2].
    now rewrite H1, H2, H3.
Qed.

(** C5.  The code at the failing input: under [prevent_doubles], alice's
    +1 followed by a reaction outside the table ("heart") strikes alice
    out; the second event, alone, turns the tally with yes = users = [alice]
    into one with yes = users = [] and doubles = [alice]. *)
Theorem unmapped_reaction_strikes_voter :
  mapped "heart" = false
  /\ (forall cs p ls,
         react
           (mkPullRequest (mkRepository (Some rules_prevent_doubles) cs)
              p ls ["alice"] [] [] ["alice"] [])
           (mkReaction "alice" "heart")
         = Ok (mkPullRequest (mkRepository (Some rules_prevent_doubles) cs)
                 p ls [] [] [] [] ["alice"]))
  /\ (forall cs p ls,
         PullRequest_init (mkRepository (Some rules_prevent_doubles) cs) p ls
           alice_then_heart
         = Ok (mkPullRequest (mkRepository (Some rules_prevent_doubles) cs)
                 p ls [] [] [] [] ["alice"])).
Proof.
  split; [reflexivity|]. split; intros cs p ls; reflexivity.
Qed.

(** ** Exceptions of the loop *)

(** C9.  The code at the failing input: with [collaborators_only] enabled,
    the first reaction, whoever sent it, ends the construction with
    [NameError]. *)
Theorem collaborators_only_raises :
  forall cs p ls r rs,
    PullRequest_init (mkRepository (Some rules_collaborators_only) cs) p ls
      (r :: rs)
    = Raise NameError.
Proof. intros cs p ls r rs. reflexivity. Qed.

(** The same for every policy that enables the key. *)
Lemma collaborators_only_raises_gen repo rl p ls r rs :
  rules repo = Some rl ->
  enabled (collaborators_only rl) = true ->
  PullRequest_init repo p ls (r :: rs) = Raise NameError.
Proof.
  intros Hr Hc. unfold PullRequest_init. simpl. unfold react. simpl.
  now rewrite Hr, Hc.
Qed.

(** The sibling filter, [contributors_only], skips the event. *)
Lemma contributors_only_skips self r rl :
  rules (repository self) = Some rl ->
  enabled (collaborators_only rl) = false ->
  enabled (contributors_only rl) = true ->
  isContributor (repository self) (login r) = false ->
  react self r = Ok self.
Proof.
  intros Hr Hc Hk Hn. unfold react. rewrite Hr, Hc, Hk, Hn. simpl.
  destruct (py_in (login r) (doubles self)); reflexivity.
Qed.

(** ** Elapsed time *)

Lemma delta_seconds_ago now k :
  delta_seconds now (now - k) = (k mod 86400)%Z.
Proof. unfold delta_seconds. f_equal. lia. Qed.

Lemma Qltb_lt x y : Qltb x y = true <-> (x < y)%Q.
Proof.
  unfold Qltb. rewrite negb_true_iff. split.
  - intros H. apply Qnot_le_lt. intros Hle.
    apply Qle_bool_iff in Hle. congruence.
  - intros H. destruct (Qle_bool y x) eqn:E; [|reflexivity].
    apply Qle_bool_iff in E. exfalso. exact (Qlt_not_le _ _ H E).
Qed.

Lemma Qltb_ge x y : Qltb x y = false <-> (y <= x)%Q.
Proof.
  unfold Qltb. rewrite negb_false_iff. apply Qle_bool_iff.
Qed.

(** [hoursSinceLastUpdate] is the smaller of the two values it is given. *)
Lemma hoursSinceLastUpdate_min now self c :
  hoursSinceLastCommit now self = Ok c ->
  exists h, hoursSinceLastUpdate now self = Ok h
            /\ (h <= hoursSincePullOpened now self)%Q /\ (h <= c)%Q
            /\ (h = hoursSincePullOpened now self \/ h = c).
Proof.
  intros Hc. unfold hoursSinceLastUpdate. rewrite Hc. simpl.
  destruct (Qltb (hoursSincePullOpened now self) c) eqn:E.
  - apply Qltb_lt in E. eexists. split; [reflexivity|].
    repeat split; [apply Qle_refl | now apply Qlt_le_weak | now left].
  - apply Qltb_ge in E. eexists. split; [reflexivity|].
    repeat split; [exact E | apply Qle_refl | now right].
Qed.

(** C6.  The code at the failing input: opened 10 hours (36000 s) ago, last
    commit 2 hours (7200 s) ago.  The two conversions give 100 and 20, the
    effective age is 20 and not 2, and [hasAged] with [mergedelay = 5]
    passes. *)
Theorem aging_example_passes :
  forall repo now,
    (hoursSincePullOpened now (aged_pull repo now 36000 7200) == 100)%Q
    /\ (exists c, hoursSinceLastCommit now (aged_pull repo now 36000 7200)
                  = Ok c /\ (c == 20)%Q)
    /\ (exists h, hoursSinceLastUpdate now (aged_pull repo now 36000 7200)
                  = Ok h /\ (h == 20)%Q /\ ~ (h == 2)%Q)
    /\ hasAged (rules_mergedelay 5) now (aged_pull repo now 36000 7200)
       = Ok true.
Proof.
  intros repo now.
  unfold hasAged, hoursSinceLastUpdate, hoursSinceLastCommit,
    hoursSincePullOpened, aged_pull. simpl.
  rewrite !delta_seconds_ago.
  split; [reflexivity|]. split; [|split].
  - eexists. split; [reflexivity | reflexivity].
  - eexists. split; [reflexivity|]. split; [reflexivity | discriminate].
  - reflexivity.
Qed.

(** ** Closing stale requests *)

(** What [shouldClose] computes, in terms of [hoursSinceLastCommit]. *)
Lemma shouldClose_structure now self rl :
  rules (repository self) = Some rl ->
  (shouldClose now self = Ok true <->
   exists t h, timeout rl = Some t
               /\ hoursSinceLastCommit now self = Ok h /\ (t <= h)%Q)
  /\ (timeout rl = None -> shouldClose now self = Ok false).
Proof.
  intros Hr. unfold shouldClose. rewrite Hr. split.
  - destruct (timeout rl) as [t|].
    + destruct (hoursSinceLastCommit now self) as [h|e]; simpl.
      * destruct (Qle_bool t h) eqn:E; split.
        -- intros _. exists t, h. apply Qle_bool_iff in E. auto.
        -- reflexivity.
        -- discriminate.
        -- intros (t' & h' & Ht & Hh & Hle).
           inversion Ht. inversion Hh. subst.
           apply Qle_bool_iff in Hle. congruence.
      * split; [discriminate|].
        intros (t' & h' & _ & Hh & _). discriminate.
    + split; [discriminate|]. intros (t' & h' & Ht & _). discriminate.
  - intros Ht. now rewrite Ht.
Qed.

(** The vote lists do not enter the decision. *)
Lemma shouldClose_ignores_votes now self y n a u d :
  shouldClose now (set_votes self y n a u d) = shouldClose now self.
Proof. reflexivity. Qed.

(** C8.  The code at two failing inputs, with [timeout = 24]: a last commit
    3 hours (10800 s) old is given the age 30 and the request is closed; a
    last commit 48 hours (172800 s) old is given the age 0 and the request
    is kept. *)
Theorem shouldClose_misjudges_age :
  forall cs now,
    shouldClose now
      (aged_pull (mkRepository (Some (rules_timeout 24)) cs) now 10800 10800)
    = Ok true
    /\ shouldClose now
         (aged_pull (mkRepository (Some (rules_timeout 24)) cs) now
            172800 172800)
       = Ok false.
Proof.
  intros cs now.
  unfold shouldClose, hoursSinceLastCommit, aged_pull. simpl.
  rewrite !delta_seconds_ago. split; reflexivity.
Qed.

(** ** Rounding to binary64 *)

Lemma two_neq_0 : ~ (2 == 0)%Q.
Proof. discriminate. Qed.

Lemma pow2_pos e : (0 < pow2 e)%Q.
Proof. apply Qpower_0_lt. reflexivity. Qed.

Lemma pow2_plus a b : (pow2 (a + b) == pow2 a * pow2 b)%Q.
Proof. apply Qpower_plus, two_neq_0. Qed.

Lemma pow2_le a b : (a <= b)%Z -> (pow2 a <= pow2 b)%Q.
Proof. intros H. apply Qpower_le_compat_l; [exact H | discriminate]. Qed.

Lemma pow2_lt_inv a b : (pow2 a < pow2 b)%Q -> (a < b)%Z.
Proof. intros H. apply (Qpower_lt_compat_l_inv 2); [exact H | reflexivity]. Qed.

Lemma pow2_Z n : (0 <= n)%Z -> (pow2 n == inject_Z (2 ^ n))%Q.
Proof. intros H. unfold pow2. rewrite Zpower_Qpower by exact H. reflexivity. Qed.

Lemma pow2_cancel e : (pow2 (- e) * pow2 e == 1)%Q.
Proof. rewrite <- pow2_plus. replace (- e + e)%Z with 0%Z by lia. reflexivity. Qed.

Lemma pow2_sub a b :
  (0 <= a)%Z -> (0 <= b)%Z ->
  (pow2 (a - b) == inject_Z (2 ^ a) / inject_Z (2 ^ b))%Q.
Proof.
  intros Ha Hb. replace (a - b)%Z with (a + - b)%Z by lia.
  rewrite pow2_plus. unfold pow2 at 2. rewrite Qpower_opp.
  fold (pow2 a). fold (pow2 b). rewrite !pow2_Z by assumption. reflexivity.
Qed.

Lemma binade_bounds x :
  (0 < x)%Q ->
  let k := (Z.log2 (Qnum x) - Z.log2 (Zpos (Qden x)))%Z in
  (pow2 (k - 1) < x)%Q /\ (x < pow2 (k + 1))%Q.
Proof.
  intros Hx k. destruct x as [n d]. unfold Qlt in Hx. simpl in Hx.
  cbn [Qnum Qden] in k.
  assert (Hn : (0 < n)%Z) by lia.
  pose proof (Z.log2_spec n Hn) as [Hn1 Hn2].
  pose proof (Z.log2_spec (Zpos d) (Pos2Z.is_pos d)) as [Hd1 Hd2].
  pose proof (Z.log2_nonneg n) as Ln.
  pose proof (Z.log2_nonneg (Zpos d)) as Ld.
  set (ln := Z.log2 n) in *. set (ld := Z.log2 (Zpos d)) in *.
  assert (P1 : (0 < 2 ^ ln)%Z) by (apply Z.pow_pos_nonneg; lia).
  assert (P2 : (0 < 2 ^ ld)%Z) by (apply Z.pow_pos_nonneg; lia).
  assert (P3 : (0 < 2 ^ Z.succ ln)%Z) by (apply Z.pow_pos_nonneg; lia).
  assert (P4 : (0 < 2 ^ Z.succ ld)%Z) by (apply Z.pow_pos_nonneg; lia).
  split.
  - replace (k - 1)%Z with (ln - Z.succ ld)%Z by (unfold k; lia).
    rewrite pow2_sub by lia.
    apply Qlt_shift_div_r; [unfold Qlt; simpl; lia|].
    unfold Qlt, Qmult. simpl. nia.
  - replace (k + 1)%Z with (Z.succ ln - ld)%Z by (unfold k; lia).
    rewrite pow2_sub by lia.
    apply Qlt_shift_div_l; [unfold Qlt; simpl; lia|].
    unfold Qlt, Qmult. simpl. nia.
Qed.

Lemma binade_spec x :
  (0 < x)%Q -> (pow2 (binade x) <= x)%Q /\ (x < pow2 (binade x + 1))%Q.
Proof.
  intros Hx. destruct (binade_bounds x Hx) as [Hlo Hhi]. unfold binade.
  set (k := (Z.log2 (Qnum x) - Z.log2 (Zpos (Qden x)))%Z) in *.
  destruct (Qle_bool (pow2 k) x) eqn:E.
  - apply Qle_bool_iff in E. auto.
  - split; [now apply Qlt_le_weak|].
    replace (k - 1 + 1)%Z with k by lia.
    apply Qnot_le_lt. intros H. apply Qle_bool_iff in H. congruence.
Qed.

Lemma binade_mono x y :
  (0 < x)%Q -> (x <= y)%Q -> (binade x <= binade y)%Z.
Proof.
  intros Hx Hxy.
  assert (Hy : (0 < y)%Q) by (eapply Qlt_le_trans; eauto).
  destruct (binade_spec x Hx) as [Hx1 _].
  destruct (binade_spec y Hy) as [_ Hy2].
  assert (H : (pow2 (binade x) < pow2 (binade y + 1))%Q).
  { eapply Qle_lt_trans; [exact Hx1|]. eapply Qle_lt_trans; eauto. }
  apply pow2_lt_inv in H. lia.
Qed.

Lemma rhe_bounds q :
  (Qfloor q <= round_half_even q <= Qfloor q + 1)%Z.
Proof.
  unfold round_half_even.
  destruct (q - inject_Z (Qfloor q) ?= 1 # 2)%Q;
    try destruct (Z.even (Qfloor q)); lia.
Qed.

Lemma rhe_Z n : round_half_even (inject_Z n) = n.
Proof.
  unfold round_half_even. rewrite Qfloor_Z.
  assert (H : (inject_Z n - inject_Z n ?= 1 # 2)%Q = Lt).
  { apply Qlt_alt. unfold Qminus. rewrite Qplus_opp_r. reflexivity. }
  now rewrite H.
Qed.

Lemma rhe_mono p q : (p <= q)%Q -> (round_half_even p <= round_half_even q)%Z.
Proof.
  intros H. pose proof (Qfloor_resp_le p q H) as Hf.
  pose proof (rhe_bounds p). pose proof (rhe_bounds q).
  destruct (Z.eq_dec (Qfloor p) (Qfloor q)) as [E|E]; [|lia].
  unfold round_half_even. rewrite E.
  assert (Hr : (p - inject_Z (Qfloor q) <= q - inject_Z (Qfloor q))%Q).
  { unfold Qminus. apply Qplus_le_compat; [exact H | apply Qle_refl]. }
  destruct (Qcompare_spec (p - inject_Z (Qfloor q)) (1 # 2)) as [Hp|Hp|Hp];
    destruct (Qcompare_spec (q - inject_Z (Qfloor q)) (1 # 2)) as [Hq|Hq|Hq];
    try destruct (Z.even (Qfloor q)); try lia; exfalso; lra.
Qed.

Lemma binary64_of_pos x : (0 < x)%Q -> binary64 x = binary64_pos x.
Proof.
  intros Hx. unfold binary64.
  assert (E : (x ?= 0)%Q = Gt) by now apply Qgt_alt.
  now rewrite E.
Qed.

Lemma binary64_of_neg x : (x < 0)%Q -> binary64 x = (- binary64_pos (- x))%Q.
Proof.
  intros Hx. unfold binary64.
  assert (E : (x ?= 0)%Q = Lt) by now apply Qlt_alt.
  now rewrite E.
Qed.

Lemma binary64_of_zero x : (x == 0)%Q -> binary64 x = 0%Q.
Proof.
  intros Hx. unfold binary64.
  assert (E : (x ?= 0)%Q = Eq) by now apply Qeq_alt.
  now rewrite E.
Qed.

Lemma rhe_nonneg q : (0 <= q)%Q -> (0 <= round_half_even q)%Z.
Proof.
  intros H. pose proof (rhe_bounds q) as [Hb _].
  pose proof (Qfloor_resp_le 0 q H) as Hf.
  change (Qfloor 0) with 0%Z in Hf. lia.
Qed.

Lemma binary64_pos_nonneg x : (0 < x)%Q -> (0 <= binary64_pos x)%Q.
Proof.
  intros Hx. unfold binary64_pos. apply Qmult_le_0_compat.
  - replace 0%Q with (inject_Z 0) by reflexivity. rewrite <- Zle_Qle.
    apply rhe_nonneg. apply Qmult_le_0_compat; [lra|].
    apply Qlt_le_weak, pow2_pos.
  - apply Qlt_le_weak, pow2_pos.
Qed.

(** A normal number rounds to at least the power of two below it. *)
Lemma binary64_pos_lower x :
  (0 < x)%Q -> (-1074 <= binade x - 52)%Z ->
  (pow2 (binade x) <= binary64_pos x)%Q.
Proof.
  intros Hx Hn. unfold binary64_pos.
  replace (Z.max (binade x - 52) (-1074)) with (binade x - 52)%Z by lia.
  set (e := (binade x - 52)%Z).
  destruct (binade_spec x Hx) as [Hlo _].
  assert (Hs : (inject_Z (2 ^ 52) <= x * pow2 (- e))%Q).
  { rewrite <- (pow2_Z 52) by lia.
    replace 52%Z with (binade x + - e)%Z by (unfold e; lia).
    rewrite pow2_plus. apply Qmult_le_compat_r; [exact Hlo|].
    apply Qlt_le_weak, pow2_pos. }
  apply rhe_mono in Hs. rewrite rhe_Z in Hs.
  replace (binade x) with (52 + e)%Z at 1 by (unfold e; lia).
  rewrite pow2_plus, (pow2_Z 52) by lia.
  apply Qmult_le_compat_r; [|apply Qlt_le_weak, pow2_pos].
  rewrite <- Zle_Qle. exact Hs.
Qed.

(** A number rounds to at most the power of two above it. *)
Lemma binary64_pos_upper x :
  (0 < x)%Q -> (binary64_pos x <= pow2 (binade x + 1))%Q.
Proof.
  intros Hx. unfold binary64_pos.
  set (e := Z.max (binade x - 52) (-1074)).
  destruct (binade_spec x Hx) as [_ Hhi].
  assert (Hs : (x * pow2 (- e) < pow2 (binade x + 1 - e))%Q).
  { replace (binade x + 1 - e)%Z with (binade x + 1 + - e)%Z by lia.
    rewrite pow2_plus. apply Qmult_lt_compat_r; [apply pow2_pos | exact Hhi]. }
  destruct (Z_le_gt_dec 0 (binade x + 1 - e)) as [Hk|Hk].
  - rewrite (pow2_Z _ Hk) in Hs.
    apply Qlt_le_weak, rhe_mono in Hs. rewrite rhe_Z in Hs.
    replace (binade x + 1)%Z with ((binade x + 1 - e) + e)%Z by lia.
    rewrite pow2_plus, (pow2_Z _ Hk).
    apply Qmult_le_compat_r; [|apply Qlt_le_weak, pow2_pos].
    rewrite <- Zle_Qle. exact Hs.
  - assert (Hh : (pow2 (binade x + 1 - e) <= 1 # 2)%Q).
    { replace (1 # 2)%Q with (pow2 (-1)) by reflexivity.
      apply pow2_le. lia. }
    assert (Hq : (0 < x * pow2 (- e))%Q).
    { apply Qmult_lt_0_compat; [exact Hx | apply pow2_pos]. }
    set (q := (x * pow2 (- e))%Q) in *.
    assert (Hf : Qfloor q = 0%Z).
    { pose proof (Qfloor_le q). pose proof (Qlt_floor q).
      assert (H1 : (inject_Z (Qfloor q) < 1)%Q) by lra.
      assert (H2 : (0 < inject_Z (Qfloor q + 1))%Q) by lra.
      replace 1%Q with (inject_Z 1) in H1 by reflexivity.
      replace 0%Q with (inject_Z 0) in H2 by reflexivity.
      rewrite <- Zlt_Qlt in H1, H2. lia. }
    assert (Hr : round_half_even q = 0%Z).
    { unfold round_half_even. rewrite Hf.
      assert (Hc : (q - inject_Z 0 ?= 1 # 2)%Q = Lt).
      { apply Qlt_alt.
        assert (Hz : (q - inject_Z 0 == q)%Q) by (unfold inject_Z; ring).
        rewrite Hz. eapply Qlt_le_trans; [exact Hs | exact Hh]. }
      now rewrite Hc. }
    rewrite Hr. rewrite Qmult_0_l. apply Qlt_le_weak, pow2_pos.
Qed.

Lemma binary64_pos_mono x y :
  (0 < x)%Q -> (x <= y)%Q -> (binary64_pos x <= binary64_pos y)%Q.
Proof.
  intros Hx Hxy. assert (Hy : (0 < y)%Q) by lra.
  pose proof (binade_mono x y Hx Hxy) as Hk.
  destruct (Z.eq_dec (Z.max (binade x - 52) (-1074))
              (Z.max (binade y - 52) (-1074))) as [E|E].
  - unfold binary64_pos. rewrite E.
    apply Qmult_le_compat_r; [|apply Qlt_le_weak, pow2_pos].
    rewrite <- Zle_Qle. apply rhe_mono.
    apply Qmult_le_compat_r; [exact Hxy | apply Qlt_le_weak, pow2_pos].
  - eapply Qle_trans; [apply (binary64_pos_upper x Hx)|].
    eapply Qle_trans; [|apply (binary64_pos_lower y Hy); lia].
    apply pow2_le. lia.
Qed.

(** Rounding keeps the order. *)
Lemma binary64_mono x y : (x <= y)%Q -> (binary64 x <= binary64 y)%Q.
Proof.
  intros Hxy.
  destruct (Qcompare_spec x 0) as [Hx|Hx|Hx];
    destruct (Qcompare_spec y 0) as [Hy|Hy|Hy]; try (exfalso; lra).
  - rewrite (binary64_of_zero x Hx), (binary64_of_zero y Hy). apply Qle_refl.
  - rewrite (binary64_of_zero x Hx), (binary64_of_pos y Hy).
    now apply binary64_pos_nonneg.
  - rewrite (binary64_of_neg x Hx), (binary64_of_zero y Hy).
    assert (H : (0 <= binary64_pos (- x))%Q)
      by (apply binary64_pos_nonneg; lra).
    lra.
  - rewrite (binary64_of_neg x Hx), (binary64_of_neg y Hy).
    assert (H : (binary64_pos (- y) <= binary64_pos (- x))%Q)
      by (apply binary64_pos_mono; lra).
    lra.
  - rewrite (binary64_of_neg x Hx), (binary64_of_pos y Hy).
    assert (H1 : (0 <= binary64_pos (- x))%Q)
      by (apply binary64_pos_nonneg; lra).
    assert (H2 : (0 <= binary64_pos y)%Q) by now apply binary64_pos_nonneg.
    lra.
  - rewrite (binary64_of_pos x Hx), (binary64_of_pos y Hy).
    now apply binary64_pos_mono.
Qed.

(** ** The criteria of [Consensus] *)

(** C3.  [hasVotes], with the quotient and the threshold as the floats they
    are in Python, passes exactly when no threshold is configured, or
    [|yes| + |no|] is positive and the quotient [|yes| / (|yes| + |no|)] is
    at least the threshold; a quotient equal to the threshold passes.  With
    threshold 1/2: one yes and one no pass, one yes and two no fail.  With a
    threshold and neither yes nor no it fails whatever the abstentions;
    without a threshold it passes.  With threshold 0.1, one yes and nine no
    pass: quotient and threshold are the same float, a little above one
    tenth.  Votes whose exact quotient is at least the threshold pass. *)
Theorem hasVotes_threshold :
  (forall rl self,
      hasVotes_binary64 rl self = true <->
      match threshold rl with
      | Some th =>
          (0 < votes_total self)%nat
          /\ (binary64 th
              <= py_truediv (List.length (yes self)) (votes_total self))%Q
      | None => True
      end)
  /\ (forall rl self th,
         threshold rl = Some th ->
         (0 < votes_total self)%nat ->
         (py_truediv (List.length (yes self)) (votes_total self)
          == binary64 th)%Q ->
         hasVotes_binary64 rl self = true)
  /\ (forall self,
         hasVotes_binary64 (rules_threshold (1 # 2))
           (with_votes self ["alice"] ["bob"]) = true
         /\ hasVotes_binary64 (rules_threshold (1 # 2))
              (with_votes self ["alice"] ["bob"; "carol"]) = false)
  /\ (forall th repo p ls a u d,
         hasVotes_binary64 (rules_threshold th)
           (mkPullRequest repo p ls [] [] a u d)
         = false)
  /\ (forall c1 c2 w pd q md t self,
         hasVotes_binary64 (mkRules c1 c2 w pd q None md t) self = true)
  /\ (forall self,
         hasVotes_binary64 (rules_threshold (1 # 10))
           (with_votes self ["alice"] nine_voters) = true
         /\ hasVotes_binary64 (rules_threshold float_0_1)
              (with_votes self ["alice"] nine_voters) = true
         /\ (binary64 (1 # 10) == float_0_1)%Q
         /\ (binary64 float_0_1 == float_0_1)%Q
         /\ (1 # 10 < float_0_1)%Q)
  /\ (forall rl self th,
         threshold rl = Some th ->
         (0 < votes_total self)%nat ->
         (th <= ratio (List.length (yes self)) (votes_total self))%Q ->
         hasVotes_binary64 rl self = true).
Proof.
  assert (Hiff : forall rl self,
             hasVotes_binary64 rl self = true <->
             match threshold rl with
             | Some th =>
                 (0 < votes_total self)%nat
                 /\ (binary64 th
                     <= py_truediv (List.length (yes self))
                          (votes_total self))%Q
             | None => True
             end).
  { intros rl self. unfold hasVotes_binary64.
    destruct (threshold rl) as [th|]; [|tauto].
    fold (votes_total self).
    destruct (votes_total self <=? 0)%nat eqn:E.
    - apply Nat.leb_le in E. split; [discriminate | lia].
    - apply Nat.leb_gt in E.
      destruct (Qltb (py_truediv (List.length (yes self)) (votes_total self))
                  (binary64 th)) eqn:L.
      + apply Qltb_lt in L. split; [discriminate|].
        intros [_ Hle]. exfalso. exact (Qlt_not_le _ _ L Hle).
      + apply Qltb_ge in L. tauto. }
  split; [exact Hiff|]. split; [|split; [|split; [|split; [|split]]]].
  - intros rl self th Hth Ht Heq. apply Hiff. rewrite Hth.
    split; [exact Ht|]. rewrite Heq. apply Qle_refl.
  - intros self. split; vm_compute; reflexivity.
  - reflexivity.
  - reflexivity.
  - intros self. repeat split; vm_compute; reflexivity.
  - intros rl self th Hth Ht Hle. apply Hiff. rewrite Hth.
    split; [exact Ht|]. unfold py_truediv.
    fold (ratio (List.length (yes self)) (votes_total self)).
    now apply binary64_mono.
Qed.

Lemma hasVotes_threshold_witness :
  (threshold (rules_threshold (1 # 10)) = Some (1 # 10)
   /\ (0 < votes_total
             (with_votes (no_commit_pull (mkRepository None []))
                ["alice"] nine_voters))%nat
   /\ (py_truediv 1 10 == binary64 (1 # 10))%Q
   /\ hasVotes_binary64 (rules_threshold (1 # 10))
        (with_votes (no_commit_pull (mkRepository None []))
           ["alice"] nine_voters) = true)
  /\ ((1 # 2 <= ratio 1 2)%Q
      /\ hasVotes_binary64 (rules_threshold (1 # 2))
           (with_votes (no_commit_pull (mkRepository None []))
              ["alice"] ["bob"]) = true).
Proof.
  split.
  - split; [reflexivity|]. split; [vm_compute; lia|].
    split; [vm_compute; reflexivity|].
    apply (proj1 (proj2 hasVotes_threshold)
             (rules_threshold (1 # 10))
             (with_votes (no_commit_pull (mkRepository None []))
                ["alice"] nine_voters)
             (1 # 10)).
    + reflexivity.
    + vm_compute. lia.
    + vm_compute. reflexivity.
  - split; [vm_compute; discriminate|].
    apply (proj2 (proj2 (proj2 (proj2 (proj2 (proj2 hasVotes_threshold)))))
             (rules_threshold (1 # 2))
             (with_votes (no_commit_pull (mkRepository None []))
                ["alice"] ["bob"])
             (1 # 2)).
    + reflexivity.
    + vm_compute. lia.
    + vm_compute. discriminate.
Defined.

Lemma init_users_NoDup repo p ls rs self :
  PullRequest_init repo p ls rs = Ok self -> NoDup (users self).
Proof.
  unfold PullRequest_init. intros H.
  destruct (rules repo) as [rl|] eqn:Hr.
  - apply (NoDup_count_occ string_dec). intros u.
    assert (Hinv : tally_inv (enabled (prevent_doubles rl)) self).
    { apply (react_all_inv rs (fresh repo p ls) self rl Hr H).
      apply tally_inv_fresh. }
    destruct (Hinv u) as (Hu & _). exact Hu.
  - destruct (react_all_no_rules rs (fresh repo p ls) self Hr eq_refl H)
      as [_ ->].
    constructor.
Qed.

(** C7.  [hasQuorum] passes exactly when no quorum is configured or the
    length of [users] is at least the quorum; without the key it passes for
    every pull request; and [users], as the constructor leaves it, lists no
    voter twice, so that its length counts distinct voters. *)
Theorem hasQuorum_counts_voters :
  (forall rl self,
      hasQuorum rl self = true <->
      match quorum rl with
      | Some q => (q <= Z.of_nat (List.length (users self)))%Z
      | None => True
      end)
  /\ (forall c1 c2 w pd th md t self,
         hasQuorum (mkRules c1 c2 w pd None th md t) self = true)
  /\ (forall repo p ls rs self,
         PullRequest_init repo p ls rs = Ok self -> NoDup (users self)).
Proof.
  split; [|split].
  - intros rl self. unfold hasQuorum.
    destruct (quorum rl) as [q|]; [|tauto].
    destruct (Z.of_nat (List.length (users self)) <? q)%Z eqn:E.
    + apply Z.ltb_lt in E. split; [discriminate | lia].
    + apply Z.ltb_ge in E. tauto.
  - reflexivity.
  - exact init_users_NoDup.
Qed.

Lemma hasQuorum_counts_voters_witness :
  hasQuorum (mkRules None None None None (Some 2%Z) None None None)
    (mkPullRequest (mkRepository None []) (mkGhPull None 0 [])
       [] ["alice"] ["bob"] [] ["alice"; "bob"] []) = true
  /\ NoDup ["bob"].
Proof.
  split.
  - apply (proj1 hasQuorum_counts_voters). simpl. discriminate.
  - apply (proj2 (proj2 hasQuorum_counts_voters)
             (mkRepository (Some rules_prevent_doubles) [])
             (mkGhPull (Some true) 0 [0%Z]) [] alice_bob_alice
             (mkPullRequest (mkRepository (Some rules_prevent_doubles) [])
                (mkGhPull (Some true) 0 [0%Z]) [] [] ["bob"] [] ["bob"]
                ["alice"])).
    reflexivity.
Defined.

(** ** Overall validity *)

(** C2.  [Consensus.validate] is the conjunction, evaluated from left to
    right, of not [isBlocked], [isMergeable], [hasQuorum], [hasVotes] and
    [hasAged]: when [hasAged] returns, it is the boolean conjunction of the
    five; a blocked pull request is invalid whatever the other criteria do;
    and a pull request that passes the other four criteria is valid without
    label and invalid with the label "WIP". *)
Theorem validate_is_conjunction :
  (forall rl now self,
      Consensus_validate rl now self
      = if negb (isBlocked self) && isMergeable self
           && hasQuorum rl self && hasVotes rl self
        then hasAged rl now self
        else Ok false)
  /\ (forall rl now self aged,
         hasAged rl now self = Ok aged ->
         Consensus_validate rl now self
         = Ok (negb (isBlocked self) && isMergeable self
               && hasQuorum rl self && hasVotes rl self && aged))
  /\ (forall rl now self,
         isBlocked self = true -> Consensus_validate rl now self = Ok false)
  /\ (forall now,
         isMergeable (voted_pull now ["WIP"]) = true
         /\ hasQuorum rules_example (voted_pull now ["WIP"]) = true
         /\ hasVotes rules_example (voted_pull now ["WIP"]) = true
         /\ hasAged rules_example now (voted_pull now ["WIP"]) = Ok true
         /\ isBlocked (voted_pull now ["WIP"]) = true
         /\ Consensus_validate rules_example now (voted_pull now ["WIP"])
            = Ok false
         /\ PullRequest_validate now (voted_pull now ["WIP"]) = Ok false
         /\ Consensus_validate rules_example now (voted_pull now [])
            = Ok true).
Proof.
  assert (Hlazy : forall rl now self,
             Consensus_validate rl now self
             = if negb (isBlocked self) && isMergeable self
                  && hasQuorum rl self && hasVotes rl self
               then hasAged rl now self
               else Ok false).
  { intros rl now self. unfold Consensus_validate.
    destruct (isBlocked self); [reflexivity|].
    destruct (isMergeable self); [|reflexivity].
    destruct (hasQuorum rl self); [|reflexivity].
    destruct (hasVotes rl self); [|reflexivity].
    simpl. destruct (hasAged rl now self) as [[|]|e]; reflexivity. }
  split; [exact Hlazy|]. split; [|split].
  - intros rl now self aged Ha. rewrite Hlazy, Ha.
    destruct (negb (isBlocked self) && isMergeable self
              && hasQuorum rl self && hasVotes rl self); reflexivity.
  - intros rl now self Hb. rewrite Hlazy, Hb. reflexivity.
  - intros now.
    assert (Ha : forall ls, hasAged rules_example now (voted_pull now ls)
                            = Ok true).
    { intros ls.
      unfold hasAged, hoursSinceLastUpdate, hoursSinceLastCommit,
        hoursSincePullOpened, voted_pull. simpl.
      rewrite !delta_seconds_ago. reflexivity. }
    unfold PullRequest_validate. simpl rules. cbv iota.
    rewrite !Hlazy, !Ha. repeat split; reflexivity.
Qed.

Lemma validate_is_conjunction_witness :
  hasAged rules_example 1000000 (voted_pull 1000000 ["WIP"]) = Ok true
  /\ Consensus_validate rules_example 1000000 (voted_pull 1000000 ["WIP"])
     = Ok (negb (isBlocked (voted_pull 1000000 ["WIP"]))
           && isMergeable (voted_pull 1000000 ["WIP"])
           && hasQuorum rules_example (voted_pull 1000000 ["WIP"])
           && hasVotes rules_example (voted_pull 1000000 ["WIP"])
           && true).
Proof.
  split; [vm_compute; reflexivity|].
  apply (proj1 (proj2 validate_is_conjunction)).
  vm_compute. reflexivity.
Defined.

(** ** Repositories without a policy *)

(** C10.  When the repository's rules are [False], [PullRequest.validate]
    returns [False]; no criterion is evaluated: the answer is the same on a
    pull request on which the criteria of a policy with a merge delay
    raise. *)
Theorem validate_without_policy :
  (forall now self,
      rules (repository self) = None ->
      PullRequest_validate now self = Ok false)
  /\ (forall now cs d,
         Consensus_validate (rules_mergedelay d) now
           (no_commit_pull (mkRepository None cs))
         = Raise UnboundLocalError
         /\ PullRequest_validate now (no_commit_pull (mkRepository None cs))
            = Ok false).
Proof.
  split.
  - intros now self Hr. unfold PullRequest_validate. now rewrite Hr.
  - intros now cs d. split; reflexivity.
Qed.

Lemma validate_without_policy_witness :
  rules (repository (no_commit_pull (mkRepository None []))) = None
  /\ PullRequest_validate 0 (no_commit_pull (mkRepository None []))
     = Ok false.
Proof.
  split; [reflexivity|].
  apply (proj1 validate_without_policy). reflexivity.
Defined.

(** * Further properties of the code *)

(** ** When the constructor raises *)

(** X1.  [PullRequest.__init__] raises exactly when there is at least one
    reaction and either the rules are [False] ([TypeError]) or the policy
    enables [collaborators_only] ([NameError]); otherwise it returns. *)
Theorem init_raises_iff repo p ls rs e :
  PullRequest_init repo p ls rs = Raise e <->
  rs <> []
  /\ ((rules repo = None /\ e = TypeError)
      \/ (exists rl, rules repo = Some rl
                     /\ enabled (collaborators_only rl) = true
                     /\ e = NameError)).
Proof.
  destruct rs as [|r rs].
  - split; [discriminate|]. intros [H _]. congruence.
  - destruct (rules repo) as [rl|] eqn:Hr.
    + destruct (enabled (collaborators_only rl)) eqn:Hc.
      * rewrite (collaborators_only_raises_gen repo rl p ls r rs Hr Hc).
        split.
        -- intros H. inversion H. split; [discriminate|].
           right. exists rl. auto.
        -- intros [_ [[H _]|(rl' & _ & _ & ->)]]; [discriminate|reflexivity].
      * destruct (react_all_total (r :: rs) (fresh repo p ls) rl Hr Hc)
          as [self E].
        unfold PullRequest_init. rewrite E. split; [discriminate|].
        intros [_ [[H _]|(rl' & Hrl' & Hc' & _)]]; [discriminate|].
        congruence.
    + unfold PullRequest_init. simpl. unfold react. simpl. rewrite Hr. simpl.
      split.
      * intros H. inversion H. split; [discriminate|]. now left.
      * intros [_ [[_ ->]|(rl' & Hrl' & _)]]; [reflexivity|discriminate].
Qed.

(** ** The voter list and the vote lists *)

Lemma tally_inv_union_fresh repo p ls : tally_inv_union (fresh repo p ls).
Proof.
  intros u. unfold votes_cnt, cnt. simpl. split; [tauto | auto with arith].
Qed.

Lemma react_inv_union self r self' rl :
  rules (repository self) = Some rl ->
  react self r = Ok self' ->
  tally_inv (enabled (prevent_doubles rl)) self ->
  tally_inv_union self ->
  tally_inv_union self'.
Proof.
  intros Hr H Hinv Hun u.
  destruct (Hinv u) as (Hu & Hud & Hv). destruct (Hun u) as (Huv & Hd1).
  destruct (string_dec (login r) u) as [<-|Hne].
  - destruct (react_cases _ _ _ H) as [->|[(rl' & Hr' & Hp & Hin & Hd & ->)|
      (rl' & Hr' & Hd & Hp & ->)]].
    + split; assumption.
    + assert (rl' = rl) by congruence. subst rl'.
      destruct (exclude_double_same self (login r))
        as (Ey & En & Ea & Eu & Ed).
      unfold votes_cnt in *. rewrite Ey, En, Ea, Eu, Ed.
      specialize (Hv Hp). apply py_in_false_cnt in Hd. split; lia.
    + destruct (record_vote_same self (login r) (content r))
        as (Ev & Eu & Ed).
      rewrite Ev, Eu, Ed. destruct (mapped (content r)); split; lia.
  - destruct (react_other _ _ _ u H Hne) as (Ey & En & Ea & Eu & Ed).
    unfold votes_cnt in *. rewrite Ey, En, Ea, Eu, Ed. split; assumption.
Qed.

Lemma react_all_inv_union rs : forall self self' rl,
  rules (repository self) = Some rl ->
  react_all self rs = Ok self' ->
  tally_inv (enabled (prevent_doubles rl)) self ->
  tally_inv_union self ->
  tally_inv_union self'.
Proof.
  induction rs as [|r rs IH]; simpl; intros self self' rl Hr H Hinv Hun.
  - inversion H. now subst.
  - destruct (react self r) as [s1|e] eqn:E; simpl in H; [|discriminate].
    apply (IH s1 self' rl).
    + rewrite (react_repository _ _ _ E). exact Hr.
    + exact H.
    + exact (react_inv _ _ _ _ Hr E Hinv).
    + exact (react_inv_union _ _ _ _ Hr E Hinv Hun).
Qed.

Lemma init_inv_union repo p ls rs self :
  PullRequest_init repo p ls rs = Ok self -> tally_inv_union self.
Proof.
  unfold PullRequest_init. intros H.
  destruct (rules repo) as [rl|] eqn:Hr.
  - apply (react_all_inv_union rs (fresh repo p ls) self rl Hr H).
    + apply tally_inv_fresh.
    + apply tally_inv_union_fresh.
  - destruct (react_all_no_rules rs (fresh repo p ls) self Hr eq_refl H)
      as [_ ->].
    apply tally_inv_union_fresh.
Qed.

Lemma init_inv repo p ls rs self rl :
  rules repo = Some rl ->
  PullRequest_init repo p ls rs = Ok self ->
  tally_inv (enabled (prevent_doubles rl)) self.
Proof.
  unfold PullRequest_init. intros Hr H.
  apply (react_all_inv rs (fresh repo p ls) self rl Hr H).
  apply tally_inv_fresh.
Qed.

(** X2.  In the tally that the constructor builds, under every policy,
    [users] holds exactly the voters of [yes], [no] and [abstain]. *)
Theorem users_is_union repo p ls rs self :
  PullRequest_init repo p ls rs = Ok self ->
  forall u,
    In u (users self) <->
    In u (yes self) \/ In u (no self) \/ In u (abstain self).
Proof.
  intros H u. destruct (init_inv_union _ _ _ _ _ H u) as (Huv & _).
  unfold votes_cnt in Huv. rewrite !cnt_In. lia.
Qed.

Lemma users_is_union_witness :
  In "bob" ["bob"] <-> In "bob" [] \/ In "bob" ["bob"] \/ In "bob" [].
Proof.
  apply (users_is_union (mkRepository (Some rules_prevent_doubles) [])
           (mkGhPull (Some true) 0 [0%Z]) [] alice_bob_alice
           (mkPullRequest (mkRepository (Some rules_prevent_doubles) [])
              (mkGhPull (Some true) 0 [0%Z]) [] [] ["bob"] [] ["bob"]
              ["alice"])).
  reflexivity.
Defined.

(** X3.  The constructor strikes no voter out twice, and under a policy
    that enables [prevent_doubles] no vote list holds a voter twice. *)
Theorem tally_lists_NoDup repo p ls rs self :
  PullRequest_init repo p ls rs = Ok self ->
  NoDup (doubles self)
  /\ (forall rl, rules repo = Some rl ->
                 enabled (prevent_doubles rl) = true ->
                 NoDup (yes self) /\ NoDup (no self)
                 /\ NoDup (abstain self)).
Proof.
  intros H. split.
  - apply (NoDup_count_occ string_dec). intros u.
    destruct (init_inv_union _ _ _ _ _ H u) as (_ & Hd). exact Hd.
  - intros rl Hr Hp.
    pose proof (init_inv _ _ _ _ _ _ Hr H) as Hinv.
    repeat split; apply (NoDup_count_occ string_dec); intros u;
      destruct (Hinv u) as (Hu & _ & Hv); specialize (Hv Hp);
      unfold votes_cnt, cnt in *; lia.
Qed.

Lemma tally_lists_NoDup_witness :
  NoDup ["alice"]
  /\ (forall rl,
         rules (mkRepository (Some rules_prevent_doubles) []) = Some rl ->
         enabled (prevent_doubles rl) = true ->
         NoDup (@nil string) /\ NoDup ["bob"] /\ NoDup (@nil string)).
Proof.
  apply (tally_lists_NoDup (mkRepository (Some rules_prevent_doubles) [])
           (mkGhPull (Some true) 0 [0%Z]) [] alice_bob_alice
           (mkPullRequest (mkRepository (Some rules_prevent_doubles) [])
              (mkGhPull (Some true) 0 [0%Z]) [] [] ["bob"] [] ["bob"]
              ["alice"])).
  reflexivity.
Defined.

(** ** Who gets recorded *)

Lemma In_py_remove u v l : In u (py_remove v l) -> In u l.
Proof.
  induction l as [|y l IH]; simpl; [tauto|].
  destruct (String.eqb v y); simpl; tauto.
Qed.

Lemma In_guarded_remove u v l :
  In u (if py_in v l then py_remove v l else l) -> In u l.
Proof. destruct (py_in v l); [apply In_py_remove | tauto]. Qed.

Lemma In_add_user u v l : In u (add_user v l) -> In u l \/ u = v.
Proof.
  unfold add_user. destruct (py_in v l); [tauto|].
  rewrite in_app_iff. simpl. intuition.
Qed.

Ltac split_recorded H :=
  destruct H as [H|[H|[H|[H|H]]]];
  try (apply in_app_iff in H; simpl in H);
  try (apply In_add_user in H);
  try (apply In_guarded_remove in H);
  try (apply In_py_remove in H);
  intuition (subst; auto).

Lemma recorded_record_vote u self v c :
  recorded u (record_vote self v c) -> recorded u self \/ u = v.
Proof.
  unfold recorded, record_vote.
  destruct (String.eqb c "+1"); simpl; [intros H; split_recorded H|].
  destruct (String.eqb c "-1"); simpl; [intros H; split_recorded H|].
  destruct (String.eqb c "confused"); simpl; [intros H; split_recorded H|].
  tauto.
Qed.

Lemma recorded_exclude_double u self v :
  recorded u (exclude_double self v) -> recorded u self \/ u = v.
Proof.
  unfold recorded, exclude_double. simpl. intros H. split_recorded H.
Qed.

(** A step that changes the object handles an event that passed the
    filters. *)
Lemma react_changes_eligible self r self' :
  react self r = Ok self' ->
  self' = self
  \/ (exists rl, rules (repository self) = Some rl
        /\ eligible (repository self) rl (login r) = true
        /\ (self' = exclude_double self (login r)
            \/ self' = record_vote self (login r) (content r))).
Proof.
  unfold react. intros H.
  destruct (py_in (login r) (doubles self)); [left; congruence|].
  destruct (rules (repository self)) as [rl|] eqn:Hr; [|discriminate].
  destruct (enabled (collaborators_only rl)); [discriminate|].
  destruct (enabled (contributors_only rl)
            && negb (isContributor (repository self) (login r))) eqn:E1.
  { left. congruence. }
  destruct (match whitelist rl with
            | Some wl => negb (py_in (login r) wl)
            | None => false
            end) eqn:E2.
  { left. congruence. }
  right. exists rl. split; [reflexivity|]. split.
  - unfold eligible. now rewrite E1, E2.
  - destruct (enabled (prevent_doubles rl) && py_in (login r) (users self));
      inversion H; auto.
Qed.

Lemma react_all_recorded rs : forall self self' rl u,
  rules (repository self) = Some rl ->
  react_all self rs = Ok self' ->
  recorded u self' ->
  recorded u self
  \/ (eligible (repository self) rl u = true /\ In u (map login rs)).
Proof.
  induction rs as [|r rs IH]; simpl; intros self self' rl u Hr H Hrec.
  - inversion H. subst. now left.
  - destruct (react self r) as [s1|e] eqn:E; simpl in H; [|discriminate].
    pose proof (react_repository _ _ _ E) as Hrepo.
    assert (Hr1 : rules (repository s1) = Some rl) by now rewrite Hrepo.
    destruct (IH s1 self' rl u Hr1 H Hrec) as [Hs1|[He Hin]].
    + destruct (react_changes_eligible _ _ _ E)
        as [->|(rl' & Hr' & He & [->| ->])].
      * now left.
      * assert (rl' = rl) by congruence. subst rl'.
        destruct (recorded_exclude_double _ _ _ Hs1) as [Hs|Hs];
          [now left | subst u; right; simpl; auto].
      * assert (rl' = rl) by congruence. subst rl'.
        destruct (recorded_record_vote _ _ _ _ Hs1) as [Hs|Hs];
          [now left | subst u; right; simpl; auto].
    + right. rewrite Hrepo in He. auto.
Qed.

(** X4.  Every voter that the constructor leaves in [yes], [no],
    [abstain], [users] or [doubles] sent one of the reactions and passed the
    filters of the policy: it is a contributor when [contributors_only] is
    enabled, and in the whitelist when there is one. *)
Theorem recorded_voters_pass_filters repo p ls rs self rl u :
  rules repo = Some rl ->
  PullRequest_init repo p ls rs = Ok self ->
  recorded u self ->
  In u (map login rs)
  /\ (enabled (contributors_only rl) = true -> isContributor repo u = true)
  /\ (forall wl, whitelist rl = Some wl -> In u wl).
Proof.
  intros Hr H Hrec.
  destruct (react_all_recorded rs (fresh repo p ls) self rl u Hr H Hrec)
    as [Hf|[He Hin]].
  - unfold recorded in Hf. simpl in Hf. tauto.
  - split; [exact Hin|]. simpl in He. unfold eligible in He.
    apply andb_prop in He as [H1 H2].
    apply negb_true_iff in H1. apply negb_true_iff in H2. split.
    + intros Hc. rewrite Hc in H1. simpl in H1.
      now apply negb_false_iff in H1.
    + intros wl Hwl. rewrite Hwl in H2. apply negb_false_iff in H2.
      now apply py_in_In.
Qed.

Lemma recorded_voters_pass_filters_witness :
  PullRequest_init repo_filtered (mkGhPull (Some true) 0 [0%Z]) []
    alice_bob_carol
  = Ok (mkPullRequest repo_filtered (mkGhPull (Some true) 0 [0%Z]) []
          [] ["bob"] [] ["bob"] [])
  /\ enabled (contributors_only rules_filtered) = true
  /\ whitelist rules_filtered = Some ["alice"; "bob"]
  /\ In "bob" (map login alice_bob_carol)
  /\ isContributor repo_filtered "bob" = true
  /\ In "bob" ["alice"; "bob"].
Proof.
  split; [reflexivity|]. split; [reflexivity|]. split; [reflexivity|].
  destruct (recorded_voters_pass_filters repo_filtered
              (mkGhPull (Some true) 0 [0%Z]) [] alice_bob_carol
              (mkPullRequest repo_filtered (mkGhPull (Some true) 0 [0%Z]) []
                 [] ["bob"] [] ["bob"] [])
              rules_filtered "bob" eq_refl eq_refl)
    as (Hsent & Hcontributor & Hwhitelist).
  - unfold recorded. simpl. tauto.
  - split; [exact Hsent|]. split.
    + exact (Hcontributor eq_refl).
    + exact (Hwhitelist ["alice"; "bob"] eq_refl).
Defined.

(** ** The tally without [prevent_doubles] *)

Lemma record_vote_fields self u c :
  yes (record_vote self u c)
  = yes self ++ (if String.eqb c "+1" then [u] else [])
  /\ no (record_vote self u c)
     = no self ++ (if String.eqb c "-1" then [u] else [])
  /\ abstain (record_vote self u c)
     = abstain self ++ (if String.eqb c "confused" then [u] else [])
  /\ users (record_vote self u c)
     = (if mapped c then add_user u (users self) else users self)
  /\ doubles (record_vote self u c) = doubles self.
Proof.
  unfold record_vote, mapped.
  destruct (String.eqb_spec c "+1") as [->|H1]; simpl.
  { rewrite !app_nil_r. auto. }
  destruct (String.eqb_spec c "-1") as [->|H2]; simpl.
  { rewrite !app_nil_r. auto. }
  destruct (String.eqb_spec c "confused") as [->|H3]; simpl;
    rewrite !app_nil_r; auto.
Qed.

Lemma react_no_prevent self r rl :
  rules (repository self) = Some rl ->
  enabled (collaborators_only rl) = false ->
  enabled (prevent_doubles rl) = false ->
  doubles self = [] ->
  react self r
  = Ok (if eligible (repository self) rl (login r)
        then record_vote self (login r) (content r) else self).
Proof.
  intros Hr Hc Hp Hd. unfold react, eligible. rewrite Hd, Hr, Hc, Hp. simpl.
  destruct (enabled (contributors_only rl)
            && negb (isContributor (repository self) (login r)));
    [reflexivity|].
  destruct (match whitelist rl with
            | Some wl => negb (py_in (login r) wl)
            | None => false
            end); reflexivity.
Qed.

Lemma react_all_no_prevent repo rl rs : forall self,
  repository self = repo ->
  rules repo = Some rl ->
  enabled (collaborators_only rl) = false ->
  enabled (prevent_doubles rl) = false ->
  doubles self = [] ->
  exists self',
    react_all self rs = Ok self'
    /\ yes self' = yes self ++ votes_for repo rl "+1" rs
    /\ no self' = no self ++ votes_for repo rl "-1" rs
    /\ abstain self' = abstain self ++ votes_for repo rl "confused" rs
    /\ users self' = voters_of repo rl rs (users self)
    /\ doubles self' = [].
Proof.
  induction rs as [|r rs IH]; intros self Hrepo Hr Hc Hp Hd.
  - exists self. unfold votes_for, voters_of. simpl.
    rewrite !app_nil_r. repeat split; auto.
  - simpl. rewrite (react_no_prevent self r rl); try assumption;
      [|now rewrite Hrepo].
    simpl. rewrite Hrepo.
    destruct (record_vote_fields self (login r) (content r))
      as (Fy & Fn & Fa & Fu & Fd).
    unfold votes_for, voters_of. simpl.
    destruct (eligible repo rl (login r)) eqn:He; simpl.
    + destruct (IH (record_vote self (login r) (content r)))
        as (self' & E & Ey & En & Ea & Eu & Ed); try assumption.
      * now rewrite record_vote_repository.
      * now rewrite Fd.
      * exists self'. split; [exact E|].
        rewrite Ey, En, Ea, Eu, Ed, Fy, Fn, Fa, Fu.
        unfold votes_for, voters_of.
        destruct (String.eqb (content r) "+1");
          destruct (String.eqb (content r) "-1");
          destruct (String.eqb (content r) "confused");
          destruct (mapped (content r));
          simpl; rewrite <- ?app_assoc; simpl; rewrite ?app_nil_r;
          repeat split; reflexivity.
    + destruct (IH self) as (self' & E & Ey & En & Ea & Eu & Ed);
        try assumption.
      exists self'. split; [exact E|].
      rewrite Ey, En, Ea, Eu, Ed. unfold votes_for, voters_of.
      repeat split; reflexivity.
Qed.

Lemma remove_idem x (l : list string) :
  remove string_dec x (remove string_dec x l) = remove string_dec x l.
Proof.
  apply notin_remove. apply remove_In.
Qed.

Lemma first_occurrences_remove x l :
  first_occurrences (remove string_dec x l)
  = remove string_dec x (first_occurrences l).
Proof.
  induction l as [|y l IH]; [reflexivity|].
  simpl. destruct (string_dec x y) as [<-|Hne].
  - rewrite IH, remove_idem. reflexivity.
  - simpl. destruct (string_dec x y) as [|_]; [contradiction|].
    rewrite IH, remove_remove_comm. reflexivity.
Qed.

Lemma first_occurrences_In x l : In x (first_occurrences l) <-> In x l.
Proof.
  induction l as [|y l IH]; simpl; [tauto|].
  destruct (string_dec y x) as [->|Hne]; [tauto|].
  split.
  - intros [H|H]; [tauto|]. apply in_remove in H. tauto.
  - intros [H|H]; [tauto|]. right. apply in_in_remove; [congruence|].
    now apply IH.
Qed.

Lemma first_occurrences_NoDup l : NoDup (first_occurrences l).
Proof.
  induction l as [|y l IH]; simpl; constructor.
  - apply remove_In.
  - clear -IH. induction (first_occurrences l) as [|z fl IHfl]; simpl;
      [constructor|].
    inversion IH; subst.
    destruct (string_dec y z); [auto|]. constructor; [|auto].
    intros Hin. apply in_remove in Hin. tauto.
Qed.

Lemma filter_not_in_app x acc l :
  filter (fun u => negb (py_in u (acc ++ [x]))) l
  = remove string_dec x (filter (fun u => negb (py_in u acc)) l).
Proof.
  induction l as [|y l IH]; [reflexivity|].
  simpl. unfold py_in at 1. rewrite existsb_app. fold (py_in y acc).
  simpl. rewrite orb_false_r.
  destruct (py_in y acc); simpl.
  - exact IH.
  - destruct (String.eqb_spec y x) as [->|Hne]; simpl.
    + destruct (string_dec x x); [exact IH | congruence].
    + destruct (string_dec x y); [congruence|]. now rewrite IH.
Qed.

(** The loop of lines 145-146 lists the new voters in the order of their
    first occurrence. *)
Lemma add_users_first_occurrences l : forall acc,
  fold_left (fun acc u => add_user u acc) l acc
  = acc ++ first_occurrences (filter (fun u => negb (py_in u acc)) l).
Proof.
  induction l as [|x l IH]; intros acc; simpl.
  - now rewrite app_nil_r.
  - unfold add_user at 2. destruct (py_in x acc) eqn:E; simpl.
    + apply IH.
    + rewrite IH, <- app_assoc. simpl.
      rewrite filter_not_in_app, first_occurrences_remove. reflexivity.
Qed.

Lemma voters_of_first_occurrences repo rl rs :
  voters_of repo rl rs []
  = first_occurrences
      (map login
         (filter (fun r => eligible repo rl (login r) && mapped (content r))
            rs)).
Proof.
  unfold voters_of. rewrite add_users_first_occurrences. simpl.
  f_equal. apply forallb_filter_id. apply forallb_forall. reflexivity.
Qed.

(** X5.  When the policy does not enable [prevent_doubles] (and the loop
    runs), the vote lists are the logins of the filtered reactions with
    content "+1", "-1" and "confused", in arrival order and with
    repetitions; [users] lists the voters of the filtered reactions of the
    table once each, in the order of their first vote; nobody is struck
    out. *)
Theorem tally_without_prevent_doubles repo rl p ls rs :
  rules repo = Some rl ->
  enabled (collaborators_only rl) = false ->
  enabled (prevent_doubles rl) = false ->
  exists self,
    PullRequest_init repo p ls rs = Ok self
    /\ yes self = votes_for repo rl "+1" rs
    /\ no self = votes_for repo rl "-1" rs
    /\ abstain self = votes_for repo rl "confused" rs
    /\ users self
       = first_occurrences
           (map login
              (filter
                 (fun r => eligible repo rl (login r) && mapped (content r))
                 rs))
    /\ NoDup (users self)
    /\ doubles self = [].
Proof.
  intros Hr Hc Hp.
  destruct (react_all_no_prevent repo rl rs (fresh repo p ls)
              eq_refl Hr Hc Hp eq_refl)
    as (self & E & Ey & En & Ea & Eu & Ed).
  exists self. simpl in *.
  rewrite voters_of_first_occurrences in Eu.
  repeat split; try assumption.
  rewrite Eu. apply first_occurrences_NoDup.
Qed.

Lemma tally_without_prevent_doubles_witness :
  exists self,
    PullRequest_init (mkRepository (Some no_rules) [])
      (mkGhPull (Some true) 0 [0%Z]) []
      (mkReaction "bob" "confused" :: alice_twice
       ++ [mkReaction "bob" "+1"; mkReaction "carol" "heart"])
    = Ok self
    /\ yes self = ["alice"; "bob"]
    /\ no self = ["alice"]
    /\ abstain self = ["bob"]
    /\ users self = ["bob"; "alice"]
    /\ NoDup (users self)
    /\ doubles self = [].
Proof.
  apply (tally_without_prevent_doubles (mkRepository (Some no_rules) [])
           no_rules (mkGhPull (Some true) 0 [0%Z]) []
           (mkReaction "bob" "confused" :: alice_twice
            ++ [mkReaction "bob" "+1"; mkReaction "carol" "heart"]));
    reflexivity.
Defined.

(** ** A voter with a single reaction *)

Lemma events_of_cons u r rs :
  events_of u (r :: rs)
  = ((if String.eqb (login r) u then 1 else 0) + events_of u rs)%nat.
Proof.
  unfold events_of. simpl. destruct (String.eqb (login r) u); reflexivity.
Qed.

Lemma events_of_In u x rs :
  In x rs -> login x = u -> (1 <= events_of u rs)%nat.
Proof.
  induction rs as [|r rs IH]; simpl; [tauto|].
  intros [->|Hin] Hl; rewrite events_of_cons.
  - rewrite Hl, String.eqb_refl. lia.
  - specialize (IH Hin Hl). lia.
Qed.

Lemma react_all_others u rs : forall self self',
  events_of u rs = 0%nat ->
  react_all self rs = Ok self' ->
  cnt u (yes self') = cnt u (yes self)
  /\ cnt u (no self') = cnt u (no self)
  /\ cnt u (abstain self') = cnt u (abstain self)
  /\ cnt u (users self') = cnt u (users self)
  /\ cnt u (doubles self') = cnt u (doubles self).
Proof.
  induction rs as [|r rs IH]; simpl; intros self self' Hn H.
  - inversion H. subst. repeat split; reflexivity.
  - destruct (react self r) as [s1|e] eqn:E; simpl in H; [|discriminate].
    rewrite events_of_cons in Hn.
    destruct (String.eqb_spec (login r) u) as [Hl|Hne]; [lia|].
    destruct (IH s1 self' Hn H) as (Ey & En & Ea & Eu & Ed).
    destruct (react_other _ _ _ u E Hne) as (Fy & Fn & Fa & Fu & Fd).
    rewrite Ey, En, Ea, Eu, Ed. auto.
Qed.

Lemma react_first_vote self r rl u :
  rules (repository self) = Some rl ->
  enabled (collaborators_only rl) = false ->
  eligible (repository self) rl u = true ->
  login r = u ->
  absent u self ->
  react self r = Ok (record_vote self u (content r)).
Proof.
  intros Hr Hc He Hl (Hu & Hd & _). unfold react.
  rewrite Hl, (cnt_py_in_false _ _ Hd), Hr, Hc, (cnt_py_in_false _ _ Hu).
  unfold eligible in He. apply andb_prop in He as [H1 H2].
  apply negb_true_iff in H1. apply negb_true_iff in H2.
  rewrite H1, H2, andb_false_r. reflexivity.
Qed.

Lemma cnt_vote_cell u (b : bool) :
  cnt u (if b then [u] else []) = if b then 1%nat else 0%nat.
Proof. destruct b; [apply cnt_one_same | reflexivity]. Qed.

Lemma react_all_single_vote repo rl u c rs : forall self self',
  repository self = repo ->
  rules repo = Some rl ->
  enabled (collaborators_only rl) = false ->
  eligible repo rl u = true ->
  mapped c = true ->
  absent u self ->
  events_of u rs = 1%nat ->
  In (mkReaction u c) rs ->
  react_all self rs = Ok self' ->
  cnt u (users self') = 1%nat
  /\ cnt u (doubles self') = 0%nat
  /\ cnt u (yes self') = (if String.eqb c "+1" then 1 else 0)%nat
  /\ cnt u (no self') = (if String.eqb c "-1" then 1 else 0)%nat
  /\ cnt u (abstain self') = (if String.eqb c "confused" then 1 else 0)%nat.
Proof.
  induction rs as [|r rs IH];
    intros self self' Hrepo Hr Hc He Hm Ha Hn Hin H; [contradiction|].
  simpl in H.
  destruct (react self r) as [s1|e] eqn:E; simpl in H; [|discriminate].
  rewrite events_of_cons in Hn.
  destruct (String.eqb_spec (login r) u) as [Hl|Hne].
  - assert (Hrest : events_of u rs = 0%nat) by lia.
    assert (Hr0 : r = mkReaction u c).
    { destruct Hin as [Heq|Hin]; [congruence|].
      pose proof (events_of_In u _ rs Hin eq_refl). lia. }
    rewrite (react_first_vote self r rl u) in E; try assumption;
      [| now rewrite Hrepo | now rewrite Hrepo].
    inversion E. subst s1. subst r. simpl in *.
    destruct (react_all_others u rs _ self' Hrest H)
      as (Ey & En & Ea & Eu & Ed).
    destruct (record_vote_fields self u c) as (Fy & Fn & Fa & Fu & Fd).
    rewrite Ey, En, Ea, Eu, Ed, Fy, Fn, Fa, Fu, Fd, Hm.
    rewrite !cnt_app, !cnt_vote_cell, cnt_add_user_same.
    destruct Ha as (Hu & Hd & Hv). unfold votes_cnt in Hv.
    repeat split; lia.
  - destruct Hin as [Heq|Hin]; [subst r; simpl in Hne; congruence|].
    apply (IH s1 self'); try assumption.
    + now rewrite (react_repository _ _ _ E).
    + destruct (react_other _ _ _ u E Hne) as (Fy & Fn & Fa & Fu & Fd).
      destruct Ha as (Hu & Hd & Hv).
      unfold absent, votes_cnt in *. rewrite Fy, Fn, Fa, Fu, Fd. auto.
Qed.

(** X6.  Under every policy on which the loop runs, a voter that passes
    the filters and sends exactly one reaction, with a content of the table,
    is in [users], is not struck out, and is in the one vote list of that
    content. *)
Theorem single_vote_counted repo rl p ls rs u c :
  rules repo = Some rl ->
  enabled (collaborators_only rl) = false ->
  eligible repo rl u = true ->
  mapped c = true ->
  events_of u rs = 1%nat ->
  In (mkReaction u c) rs ->
  exists self,
    PullRequest_init repo p ls rs = Ok self
    /\ In u (users self) /\ ~ In u (doubles self)
    /\ (In u (yes self) <-> c = "+1")
    /\ (In u (no self) <-> c = "-1")
    /\ (In u (abstain self) <-> c = "confused").
Proof.
  intros Hr Hc He Hm Hn Hin.
  destruct (react_all_total rs (fresh repo p ls) rl Hr Hc) as [self E].
  exists self. split; [exact E|].
  destruct (react_all_single_vote repo rl u c rs (fresh repo p ls) self
              eq_refl Hr Hc He Hm) as (Eu & Ed & Ey & En & Ea);
    try assumption.
  { unfold absent, votes_cnt, cnt. simpl. auto. }
  rewrite cnt_not_In, !cnt_In, Eu, Ed, Ey, En, Ea.
  split; [lia|]. split; [reflexivity|].
  destruct (String.eqb_spec c "+1"); destruct (String.eqb_spec c "-1");
    destruct (String.eqb_spec c "confused"); repeat split; intros;
    try lia; try congruence.
Qed.

Lemma single_vote_counted_witness :
  exists self,
    PullRequest_init (mkRepository (Some rules_prevent_doubles) [])
      (mkGhPull (Some true) 0 [0%Z]) [] alice_bob_alice = Ok self
    /\ In "bob" (users self) /\ ~ In "bob" (doubles self)
    /\ (In "bob" (yes self) <-> "-1" = "+1")
    /\ (In "bob" (no self) <-> "-1" = "-1")
    /\ (In "bob" (abstain self) <-> "-1" = "confused").
Proof.
  apply (single_vote_counted (mkRepository (Some rules_prevent_doubles) [])
           rules_prevent_doubles (mkGhPull (Some true) 0 [0%Z]) []
           alice_bob_alice "bob" "-1"); try reflexivity.
  simpl. tauto.
Defined.

(** ** How many voters a list of reactions can give *)

Lemma length_py_remove v l : (List.length (py_remove v l) <= List.length l)%nat.
Proof.
  induction l as [|y l IH]; simpl; [lia|].
  destruct (String.eqb v y); simpl; lia.
Qed.

Lemma length_guarded_remove v l :
  (List.length (if py_in v l then py_remove v l else l) <= List.length l)%nat.
Proof. destruct (py_in v l); [apply length_py_remove | lia]. Qed.

Lemma length_add_user v l :
  (List.length (add_user v l) <= S (List.length l))%nat.
Proof.
  unfold add_user. destruct (py_in v l); [lia|].
  rewrite length_app. simpl. lia.
Qed.

Lemma react_lengths self r self' :
  react self r = Ok self' ->
  (List.length (users self') <= S (List.length (users self)))%nat
  /\ (List.length (yes self') + List.length (no self')
      + List.length (abstain self')
      <= S (List.length (yes self) + List.length (no self)
            + List.length (abstain self)))%nat.
Proof.
  intros H.
  destruct (react_cases _ _ _ H) as [->|[(rl & _ & _ & _ & _ & ->)|
    (rl & _ & _ & _ & ->)]].
  - lia.
  - unfold exclude_double. simpl.
    pose proof (length_py_remove (login r) (users self)).
    pose proof (length_guarded_remove (login r) (yes self)).
    pose proof (length_guarded_remove (login r) (no self)).
    pose proof (length_guarded_remove (login r) (abstain self)).
    lia.
  - pose proof (length_add_user (login r) (users self)).
    unfold record_vote.
    destruct (String.eqb (content r) "+1"); simpl;
      [rewrite length_app; simpl; lia|].
    destruct (String.eqb (content r) "-1"); simpl;
      [rewrite length_app; simpl; lia|].
    destruct (String.eqb (content r) "confused"); simpl;
      [rewrite length_app; simpl; lia|].
    lia.
Qed.

Lemma react_all_lengths rs : forall self self',
  react_all self rs = Ok self' ->
  (List.length (users self') <= List.length (users self) + List.length rs)%nat
  /\ (List.length (yes self') + List.length (no self')
      + List.length (abstain self')
      <= List.length (yes self) + List.length (no self)
         + List.length (abstain self) + List.length rs)%nat.
Proof.
  induction rs as [|r rs IH]; simpl; intros self self' H.
  - inversion H. subst. lia.
  - destruct (react self r) as [s1|e] eqn:E; simpl in H; [|discriminate].
    pose proof (react_lengths _ _ _ E). pose proof (IH _ _ H). lia.
Qed.

(** X7.  The constructor records at most one voter and at most one vote
    per reaction: [users], and [yes], [no], [abstain] together, are no
    longer than the list of reactions. *)
Theorem tally_bounded_by_reactions repo p ls rs self :
  PullRequest_init repo p ls rs = Ok self ->
  (List.length (users self) <= List.length rs)%nat
  /\ (List.length (yes self) + List.length (no self)
      + List.length (abstain self) <= List.length rs)%nat.
Proof.
  intros H. apply react_all_lengths in H. simpl in H. lia.
Qed.

Lemma tally_bounded_by_reactions_witness :
  (List.length ["bob"] <= List.length alice_bob_alice)%nat
  /\ (List.length (@nil string) + List.length ["bob"]
      + List.length (@nil string) <= List.length alice_bob_alice)%nat.
Proof.
  apply (tally_bounded_by_reactions
           (mkRepository (Some rules_prevent_doubles) [])
           (mkGhPull (Some true) 0 [0%Z]) [] alice_bob_alice
           (mkPullRequest (mkRepository (Some rules_prevent_doubles) [])
              (mkGhPull (Some true) 0 [0%Z]) [] [] ["bob"] [] ["bob"]
              ["alice"])).
  reflexivity.
Defined.

(** X8.  A pull request with fewer reactions than the quorum is never
    valid: [PullRequest.validate] returns [False] on it, without raising. *)
Theorem too_few_reactions_invalid repo rl p ls rs self q now :
  rules repo = Some rl ->
  quorum rl = Some q ->
  (Z.of_nat (List.length rs) < q)%Z ->
  PullRequest_init repo p ls rs = Ok self ->
  PullRequest_validate now self = Ok false.
Proof.
  intros Hr Hq Hlt H.
  destruct (tally_bounded_by_reactions _ _ _ _ _ H) as [Hu _].
  assert (Hrepo : repository self = repo).
  { unfold PullRequest_init in H.
    now rewrite (react_all_repository _ _ _ H). }
  unfold PullRequest_validate. rewrite Hrepo, Hr.
  unfold Consensus_validate.
  destruct (isBlocked self); [reflexivity|].
  destruct (negb (isMergeable self)); [reflexivity|].
  assert (Hqf : hasQuorum rl self = false).
  { unfold hasQuorum. rewrite Hq.
    destruct (Z.of_nat (List.length (users self)) <? q)%Z eqn:E;
      [reflexivity|].
    apply Z.ltb_ge in E. lia. }
  rewrite Hqf. reflexivity.
Qed.

Lemma too_few_reactions_invalid_witness :
  PullRequest_validate 0
    (mkPullRequest
       (mkRepository
          (Some (mkRules None None None None (Some 3%Z) None None None)) [])
       (mkGhPull (Some true) 0 [0%Z]) [] ["alice"] ["alice"] [] ["alice"] [])
  = Ok false.
Proof.
  apply (too_few_reactions_invalid
           (mkRepository
              (Some (mkRules None None None None (Some 3%Z) None None None))
              [])
           (mkRules None None None None (Some 3%Z) None None None)
           (mkGhPull (Some true) 0 [0%Z]) [] alice_twice _ 3%Z 0%Z);
    try reflexivity.
Defined.

(** ** How [hasVotes] moves with the votes *)

Lemma Zpos_of_nat t : (0 < t)%nat -> Zpos (Pos.of_nat t) = Z.of_nat t.
Proof. intros H. lia. Qed.

Lemma ratio_Qmake y t :
  (0 < t)%nat -> (ratio y t == Z.of_nat y # Pos.of_nat t)%Q.
Proof.
  intros H. unfold ratio. rewrite Qmake_Qdiv, (Zpos_of_nat t H). reflexivity.
Qed.

Lemma ratio_le a b c d :
  (0 < b)%nat -> (0 < d)%nat -> (a * d <= c * b)%nat ->
  (ratio a b <= ratio c d)%Q.
Proof.
  intros Hb Hd H. rewrite (ratio_Qmake a b Hb), (ratio_Qmake c d Hd).
  unfold Qle. simpl. rewrite (Zpos_of_nat b Hb), (Zpos_of_nat d Hd). nia.
Qed.




(** [hasVotes] in terms of the two lengths. *)
Lemma hasVotes_lengths rl self :
  hasVotes rl self = true <->
  match threshold rl with
  | Some th =>
      (0 < List.length (yes self) + List.length (no self))%nat
      /\ (th <= ratio (List.length (yes self))
                  (List.length (yes self) + List.length (no self)))%Q
  | None => True
  end.
Proof.
  unfold hasVotes, ratio. destruct (threshold rl) as [th|]; [|tauto].
  destruct (List.length (yes self) + List.length (no self) <=? 0)%nat eqn:E.
  - apply Nat.leb_le in E. split; [discriminate | lia].
  - apply Nat.leb_gt in E.
    match goal with |- context [Qltb ?r th] =>
      destruct (Qltb r th) eqn:L end.
    + apply Qltb_lt in L. split; [discriminate|].
      intros [_ Hle]. exfalso. exact (Qlt_not_le _ _ L Hle).
    + apply Qltb_ge in L. tauto.
Qed.





(** ** The rounded quotient *)

Lemma py_truediv_ratio a b : py_truediv a b = binary64 (ratio a b).
Proof. reflexivity. Qed.

(** [hasVotes_binary64] in terms of the two lengths. *)
Lemma hasVotes_binary64_lengths rl self :
  hasVotes_binary64 rl self = true <->
  match threshold rl with
  | Some th =>
      (0 < List.length (yes self) + List.length (no self))%nat
      /\ (binary64 th
          <= py_truediv (List.length (yes self))
               (List.length (yes self) + List.length (no self)))%Q
  | None => True
  end.
Proof.
  unfold hasVotes_binary64. destruct (threshold rl) as [th|]; [|tauto].
  destruct (List.length (yes self) + List.length (no self) <=? 0)%nat eqn:E.
  - apply Nat.leb_le in E. split; [discriminate | lia].
  - apply Nat.leb_gt in E.
    match goal with |- context [Qltb ?r (binary64 th)] =>
      destruct (Qltb r (binary64 th)) eqn:L end.
    + apply Qltb_lt in L. split; [discriminate|].
      intros [_ Hle]. exfalso. exact (Qlt_not_le _ _ L Hle).
    + apply Qltb_ge in L. tauto.
Qed.

(** X21.  The threshold check with the two floats moves with the votes as
    the exact one does: one more yes vote never turns a pass into a fail;
    when the float of the threshold is positive, one more no vote never
    turns a fail into a pass.  Votes that pass the check with the exact
    quotient pass the check with the floats. *)
Theorem hasVotes_binary64_monotone rl self u :
  (hasVotes_binary64 rl self = true ->
   hasVotes_binary64 rl (with_votes self (yes self ++ [u]) (no self)) = true)
  /\ (forall th, threshold rl = Some th -> (0 < binary64 th)%Q ->
                 hasVotes_binary64 rl self = false ->
                 hasVotes_binary64 rl
                   (with_votes self (yes self) (no self ++ [u]))
                 = false)
  /\ (hasVotes rl self = true -> hasVotes_binary64 rl self = true).
Proof.
  split; [|split].
  - rewrite !hasVotes_binary64_lengths. simpl.
    destruct (threshold rl) as [th|]; [|tauto].
    rewrite length_app. simpl. intros [Ht Hle]. split; [lia|].
    eapply Qle_trans; [exact Hle|]. rewrite !py_truediv_ratio.
    apply binary64_mono, ratio_le; lia.
  - intros th Hth Hpos Hf.
    destruct (hasVotes_binary64 rl
                (with_votes self (yes self) (no self ++ [u])))
      eqn:E; [|reflexivity].
    exfalso. apply hasVotes_binary64_lengths in E. simpl in E.
    rewrite Hth, length_app in E. simpl in E. destruct E as [_ Hle].
    assert (Hnot : hasVotes_binary64 rl self <> true) by congruence.
    apply Hnot. apply hasVotes_binary64_lengths. rewrite Hth.
    destruct (Nat.eq_dec (List.length (yes self) + List.length (no self)) 0)
      as [Hz|Hnz].
    + exfalso.
      assert (Hy : List.length (yes self) = 0%nat) by lia.
      rewrite Hy, py_truediv_ratio in Hle.
      rewrite (binary64_of_zero (ratio 0 _)) in Hle.
      * exact (Qlt_not_le _ _ Hpos Hle).
      * rewrite ratio_Qmake by lia. reflexivity.
    + split; [lia|]. eapply Qle_trans; [exact Hle|].
      rewrite !py_truediv_ratio. apply binary64_mono, ratio_le; lia.
  - intros Hex. apply hasVotes_lengths in Hex.
    apply hasVotes_binary64_lengths.
    destruct (threshold rl) as [th|]; [|exact I].
    destruct Hex as [Ht Hle]. split; [exact Ht|].
    rewrite py_truediv_ratio. now apply binary64_mono.
Qed.

Lemma hasVotes_binary64_monotone_witness :
  hasVotes_binary64 (rules_threshold (1 # 2))
    (with_votes (no_commit_pull (mkRepository None []))
       (["alice"] ++ ["carol"]) ["bob"]) = true
  /\ hasVotes_binary64 (rules_threshold (1 # 10))
       (with_votes (no_commit_pull (mkRepository None []))
          [] (nine_voters ++ ["carol"])) = false
  /\ hasVotes_binary64 (rules_threshold (1 # 2))
       (with_votes (no_commit_pull (mkRepository None []))
          ["alice"] ["bob"]) = true.
Proof.
  split; [|split].
  - apply (proj1 (hasVotes_binary64_monotone (rules_threshold (1 # 2))
                    (with_votes (no_commit_pull (mkRepository None []))
                       ["alice"] ["bob"]) "carol")).
    vm_compute. reflexivity.
  - apply (proj1 (proj2 (hasVotes_binary64_monotone
                           (rules_threshold (1 # 10))
                           (with_votes
                              (no_commit_pull (mkRepository None []))
                              [] nine_voters) "carol"))
             (1 # 10)).
    + reflexivity.
    + vm_compute. reflexivity.
    + vm_compute. reflexivity.
  - apply (proj2 (proj2 (hasVotes_binary64_monotone
                           (rules_threshold (1 # 2))
                           (with_votes
                              (no_commit_pull (mkRepository None []))
                              ["alice"] ["bob"]) "carol"))).
    vm_compute. reflexivity.
Defined.

(** ** What the time functions return *)

Lemma delta_seconds_range now t :
  (0 <= delta_seconds now t < 86400)%Z.
Proof. unfold delta_seconds. apply Z.mod_pos_bound. lia. Qed.

Lemma delta_seconds_shift now t k :
  delta_seconds (now + 86400 * k) t = delta_seconds now t.
Proof.
  unfold delta_seconds.
  replace (now + 86400 * k - t)%Z with (now - t + k * 86400)%Z by lia.
  apply Z_mod_plus_full.
Qed.

Lemma div360_range s :
  (0 <= s < 86400)%Z ->
  (0 <= inject_Z s / inject_Z 360)%Q /\ (inject_Z s / inject_Z 360 < 240)%Q.
Proof.
  intros H. rewrite <- (Qmake_Qdiv s 360). unfold Qle, Qlt. simpl. lia.
Qed.

Lemma hoursSinceLastCommit_cases now self :
  (commit_dates (pr self) = []
   /\ hoursSinceLastCommit now self = Raise UnboundLocalError)
  \/ (exists l d, commit_dates (pr self) = l ++ [d]
        /\ hoursSinceLastCommit now self
           = Ok (inject_Z (delta_seconds now d) / inject_Z 360)%Q).
Proof.
  unfold hoursSinceLastCommit, last_commit_date.
  destruct (commit_dates (pr self)) as [|d0 l0] eqn:E using rev_ind.
  - left. split; reflexivity.
  - right. exists l0, d0. split; [reflexivity|].
    rewrite rev_unit. reflexivity.
Qed.

(** X11.  Whatever the dates, the two elapsed-time methods return a value
    from 0 (included) to 240 (excluded), and so does
    [hoursSinceLastUpdate]. *)
Theorem hours_between_0_and_240 now self :
  (0 <= hoursSincePullOpened now self
   /\ hoursSincePullOpened now self < 240)%Q
  /\ (forall h, hoursSinceLastCommit now self = Ok h ->
                (0 <= h /\ h < 240)%Q)
  /\ (forall h, hoursSinceLastUpdate now self = Ok h ->
                (0 <= h /\ h < 240)%Q).
Proof.
  assert (Ho : (0 <= hoursSincePullOpened now self
                /\ hoursSincePullOpened now self < 240)%Q).
  { unfold hoursSincePullOpened. apply div360_range, delta_seconds_range. }
  assert (Hc : forall h, hoursSinceLastCommit now self = Ok h ->
                         (0 <= h /\ h < 240)%Q).
  { intros h Hh.
    destruct (hoursSinceLastCommit_cases now self)
      as [[_ E]|(l & d & _ & E)]; rewrite E in Hh; [discriminate|].
    inversion Hh. apply div360_range, delta_seconds_range. }
  split; [exact Ho|]. split; [exact Hc|].
  intros h Hh. unfold hoursSinceLastUpdate in Hh.
  destruct (hoursSinceLastCommit now self) as [c|e]; simpl in Hh;
    [|discriminate].
  destruct (Qltb (hoursSincePullOpened now self) c); inversion Hh; subst.
  - exact Ho.
  - now apply Hc.
Qed.

Lemma hours_between_0_and_240_witness :
  (0 <= inject_Z 7200 / inject_Z 360 /\ inject_Z 7200 / inject_Z 360 < 240)%Q.
Proof.
  apply (proj1 (proj2 (hours_between_0_and_240 1000000
                         (aged_pull (mkRepository None []) 1000000
                            36000 7200)))).
  reflexivity.
Defined.

(** X12.  Whole days do not count: moving the clock by any number of
    days (86400 s) changes none of the elapsed-time values, nor the answers
    of [shouldClose] and of [Consensus.validate]. *)
Theorem whole_days_are_dropped now k self :
  hoursSincePullOpened (now + 86400 * k) self = hoursSincePullOpened now self
  /\ hoursSinceLastCommit (now + 86400 * k) self
     = hoursSinceLastCommit now self
  /\ hoursSinceLastUpdate (now + 86400 * k) self
     = hoursSinceLastUpdate now self
  /\ shouldClose (now + 86400 * k) self = shouldClose now self
  /\ (forall rl, Consensus_validate rl (now + 86400 * k) self
                 = Consensus_validate rl now self).
Proof.
  assert (Ho : hoursSincePullOpened (now + 86400 * k) self
               = hoursSincePullOpened now self).
  { unfold hoursSincePullOpened. now rewrite delta_seconds_shift. }
  assert (Hc : hoursSinceLastCommit (now + 86400 * k) self
               = hoursSinceLastCommit now self).
  { unfold hoursSinceLastCommit.
    destruct (last_commit_date (commit_dates (pr self))); unfold bind;
      [now rewrite delta_seconds_shift | reflexivity]. }
  assert (Hu : hoursSinceLastUpdate (now + 86400 * k) self
               = hoursSinceLastUpdate now self).
  { unfold hoursSinceLastUpdate. now rewrite Ho, Hc. }
  repeat split; try assumption.
  - unfold shouldClose. now rewrite Hc.
  - intros rl. unfold Consensus_validate, hasAged. now rewrite Hu.
Qed.

(** X14.  A timeout of 240 or more never closes a pull request, and a
    merge delay of 240 or more never lets one be valid. *)
Theorem large_delays_never_met now self rl :
  (forall t, rules (repository self) = Some rl -> timeout rl = Some t ->
             (240 <= t)%Q -> shouldClose now self <> Ok true)
  /\ (forall d, mergedelay rl = Some d -> (240 <= d)%Q ->
                Consensus_validate rl now self <> Ok true).
Proof.
  destruct (hours_between_0_and_240 now self) as (_ & Hc & Hu). split.
  - intros t Hr Ht Hle. unfold shouldClose. rewrite Hr, Ht.
    destruct (hoursSinceLastCommit now self) as [h|e]; simpl;
      [|discriminate].
    destruct (Hc h eq_refl) as [_ Hlt].
    destruct (Qle_bool t h) eqn:E; [|discriminate].
    apply Qle_bool_iff in E. exfalso.
    exact (Qlt_not_le _ _ Hlt (Qle_trans _ _ _ Hle E)).
  - intros d Hd Hle. unfold Consensus_validate, hasAged. rewrite Hd.
    destruct (isBlocked self); [discriminate|].
    destruct (negb (isMergeable self)); [discriminate|].
    destruct (negb (hasQuorum rl self)); [discriminate|].
    destruct (negb (hasVotes rl self)); [discriminate|].
    destruct (hoursSinceLastUpdate now self) as [h|e]; simpl;
      [|discriminate].
    destruct (Hu h eq_refl) as [_ Hlt].
    assert (L : Qltb h d = true).
    { apply Qltb_lt. exact (Qlt_le_trans _ _ _ Hlt Hle). }
    rewrite L. simpl. discriminate.
Qed.

Lemma large_delays_never_met_witness :
  shouldClose 1000000
    (aged_pull (mkRepository (Some (rules_timeout 240)) []) 1000000
       8640000 8640000)
  <> Ok true.
Proof.
  apply (proj1 (large_delays_never_met 1000000
                  (aged_pull (mkRepository (Some (rules_timeout 240)) [])
                     1000000 8640000 8640000)
                  (rules_timeout 240)) 240%Q).
  - reflexivity.
  - reflexivity.
  - apply Qle_refl.
Defined.

(** ** Pull requests without commits *)

Lemma hoursSinceLastCommit_raises now self e :
  hoursSinceLastCommit now self = Raise e <->
  commit_dates (pr self) = [] /\ e = UnboundLocalError.
Proof.
  destruct (hoursSinceLastCommit_cases now self)
    as [[Hd E]|(l & d & Hd & E)]; rewrite E.
  - split; [intros H; inversion H; auto | intros [_ ->]; reflexivity].
  - split; [discriminate|]. intros [H _]. rewrite H in Hd.
    destruct l; discriminate.
Qed.

Lemma hoursSinceLastUpdate_raises now self e :
  hoursSinceLastUpdate now self = Raise e <->
  commit_dates (pr self) = [] /\ e = UnboundLocalError.
Proof.
  rewrite <- (hoursSinceLastCommit_raises now self e).
  unfold hoursSinceLastUpdate.
  destruct (hoursSinceLastCommit now self) as [c|e']; unfold bind.
  - destruct (Qltb (hoursSincePullOpened now self) c);
      split; discriminate.
  - tauto.
Qed.

(** X15.  The checks raise only for want of a commit, and only when they
    need the age: [shouldClose] (on a policy) raises exactly when a timeout
    is configured and the pull request has no commit; [Consensus.validate]
    raises exactly when a merge delay is configured, the pull request has no
    commit, and the four criteria before [hasAged] pass.  The exception is
    [UnboundLocalError]. *)
Theorem checks_raise_without_commit now self rl e :
  (rules (repository self) = Some rl ->
   (shouldClose now self = Raise e <->
    timeout rl <> None /\ commit_dates (pr self) = []
    /\ e = UnboundLocalError))
  /\ (Consensus_validate rl now self = Raise e <->
      mergedelay rl <> None /\ commit_dates (pr self) = []
      /\ e = UnboundLocalError
      /\ isBlocked self = false /\ isMergeable self = true
      /\ hasQuorum rl self = true /\ hasVotes rl self = true).
Proof.
  split.
  - intros Hr. unfold shouldClose. rewrite Hr.
    destruct (timeout rl) as [t|].
    + destruct (hoursSinceLastCommit now self) as [h|e'] eqn:E; simpl.
      * split.
        -- destruct (Qle_bool t h); discriminate.
        -- intros (_ & Hd & He).
           assert (Hx : hoursSinceLastCommit now self = Raise e)
             by (apply hoursSinceLastCommit_raises; auto).
           congruence.
      * apply hoursSinceLastCommit_raises in E. destruct E as [Hd ->].
        split.
        -- intros H. inversion H. repeat split; auto. discriminate.
        -- intros (_ & _ & ->). reflexivity.
    + split; [discriminate|]. intros [H _]. congruence.
  - unfold Consensus_validate, hasAged.
    destruct (isBlocked self); [split; [discriminate|];
      intros (_ & _ & _ & H & _); discriminate|].
    destruct (isMergeable self); simpl; [|split; [discriminate|];
      intros (_ & _ & _ & _ & H & _); discriminate].
    destruct (hasQuorum rl self); simpl; [|split; [discriminate|];
      intros (_ & _ & _ & _ & _ & H & _); discriminate].
    destruct (hasVotes rl self); simpl; [|split; [discriminate|];
      intros (_ & _ & _ & _ & _ & _ & H); discriminate].
    destruct (mergedelay rl) as [d|]; simpl.
    + destruct (hoursSinceLastUpdate now self) as [h|e'] eqn:E; simpl.
      * split.
        -- destruct (Qltb h d); discriminate.
        -- intros (_ & Hd & He & _).
           assert (Hx : hoursSinceLastUpdate now self = Raise e)
             by (apply hoursSinceLastUpdate_raises; auto).
           congruence.
      * apply hoursSinceLastUpdate_raises in E. destruct E as [Hd ->].
        split.
        -- intros H. inversion H. repeat split; auto. discriminate.
        -- intros (_ & _ & -> & _). reflexivity.
    + split; [discriminate|]. intros [H _]. congruence.
Qed.

Lemma checks_raise_without_commit_witness :
  shouldClose 0 (no_commit_pull (mkRepository (Some (rules_timeout 24)) []))
  = Raise UnboundLocalError.
Proof.
  apply (proj1 (checks_raise_without_commit 0
                  (no_commit_pull
                     (mkRepository (Some (rules_timeout 24)) []))
                  (rules_timeout 24) UnboundLocalError) eq_refl).
  repeat split. discriminate.
Defined.

(** Only the commit iterated last is dated: the commits before it,
    older or newer, do not change [hoursSinceLastCommit]. *)
Theorem last_listed_commit_decides now self l d :
  hoursSinceLastCommit now (with_commits self (l ++ [d]))
  = hoursSinceLastCommit now (with_commits self [d])
  /\ hoursSinceLastCommit now (with_commits self (l ++ [d]))
     = Ok (inject_Z (delta_seconds now d) / inject_Z 360)%Q.
Proof.
  unfold hoursSinceLastCommit, last_commit_date, with_commits. simpl.
  rewrite rev_unit. split; reflexivity.
Qed.

(** ** Blocking labels *)

Lemma lower_ascii_idem c : lower_ascii (lower_ascii c) = lower_ascii c.
Proof. destruct c as [[] [] [] [] [] [] [] []]; reflexivity. Qed.

Lemma lower_idem s : lower (lower s) = lower s.
Proof.
  induction s as [|c s IH]; simpl; [reflexivity|].
  now rewrite lower_ascii_idem, IH.
Qed.

Lemma py_in_map_lower x ls :
  py_in x (map lower ls) = true <-> exists l, In l ls /\ lower l = x.
Proof.
  rewrite py_in_In, in_map_iff. split; intros (l & H1 & H2); exists l; auto.
Qed.

(** X16.  A pull request is blocked exactly when one of its labels is
    "wip" or "dontmerge" up to the case of its letters; lowering the labels
    beforehand changes nothing, and further labels never unblock. *)
Theorem isBlocked_ignores_case self :
  (isBlocked self = true <->
   exists l, In l (labels self)
             /\ (lower l = "wip" \/ lower l = "dontmerge"))
  /\ isBlocked (with_labels self (map lower (labels self))) = isBlocked self
  /\ (forall ls, isBlocked self = true ->
                 isBlocked (with_labels self (labels self ++ ls)) = true).
Proof.
  assert (Hchar : forall s,
             isBlocked s = true <->
             exists l, In l (labels s)
                       /\ (lower l = "wip" \/ lower l = "dontmerge")).
  { intros s. unfold isBlocked.
    destruct (py_in "wip" (map lower (labels s))) eqn:E1.
    - apply py_in_map_lower in E1 as (l & Hl & Hw).
      split; [|reflexivity]. intros _. exists l. auto.
    - destruct (py_in "dontmerge" (map lower (labels s))) eqn:E2.
      + apply py_in_map_lower in E2 as (l & Hl & Hw).
        split; [|reflexivity]. intros _. exists l. auto.
      + split; [discriminate|]. intros (l & Hl & [Hw|Hw]).
        * assert (py_in "wip" (map lower (labels s)) = true)
            by (apply py_in_map_lower; eauto).
          congruence.
        * assert (py_in "dontmerge" (map lower (labels s)) = true)
            by (apply py_in_map_lower; eauto).
          congruence. }
  split; [apply Hchar|]. split.
  - unfold isBlocked, with_labels. simpl. rewrite map_map.
    rewrite (map_ext (fun x => lower (lower x)) lower lower_idem).
    reflexivity.
  - intros ls Hb. apply Hchar. apply Hchar in Hb as (l & Hl & Hw).
    exists l. simpl. rewrite in_app_iff. auto.
Qed.

Lemma isBlocked_ignores_case_witness :
  isBlocked (with_labels (voted_pull 0 ["DontMerge"])
               (labels (voted_pull 0 ["DontMerge"]) ++ ["bug"]))
  = true.
Proof.
  apply (proj2 (proj2 (isBlocked_ignores_case
                         (voted_pull 0 ["DontMerge"])))).
  reflexivity.
Defined.

(** ** The vote table *)

Lemma str_app_assoc (a b c : string) :
  ((a ++ b) ++ c)%string = (a ++ (b ++ c))%string.
Proof.
  induction a as [|x a IH]; simpl; [reflexivity | now rewrite IH].
Qed.

Lemma buildVoteTable_rows self us : forall table,
  fold_left (fun table user => (table ++ nl ++ vote_row self user)%string)
    us table
  = (table ++ rows_of self us)%string.
Proof.
  induction us as [|u us IH]; intros table.
  - unfold rows_of. cbn [fold_left fold_right].
    induction table as [|x t IHt]; simpl; [reflexivity | now rewrite <- IHt].
  - unfold rows_of. cbn [fold_left fold_right]. fold (rows_of self us).
    rewrite IH. rewrite !str_app_assoc. reflexivity.
Qed.

Lemma cell_is_check_mark (b : bool) (blank : string) :
  blank <> check_mark ->
  ((if b then check_mark else blank) = check_mark <-> b = true).
Proof. intros Hb. destruct b; split; congruence. Qed.

(** X17.  The vote table is the header followed by one row per voter of
    [users], in order.  On a tally built by the constructor every row has a
    check mark in at least one of its three cells, and under
    [prevent_doubles] in no two of them. *)
Theorem vote_table_marks repo p ls rs self :
  PullRequest_init repo p ls rs = Ok self ->
  buildVoteTable self = (table_header ++ rows_of self (users self))%string
  /\ (forall u, In u (users self) ->
        yes_cell self u = check_mark \/ no_cell self u = check_mark
        \/ abstain_cell self u = check_mark)
  /\ (forall rl u, rules repo = Some rl ->
        enabled (prevent_doubles rl) = true ->
        ~ (yes_cell self u = check_mark /\ no_cell self u = check_mark)
        /\ ~ (yes_cell self u = check_mark
              /\ abstain_cell self u = check_mark)
        /\ ~ (no_cell self u = check_mark
              /\ abstain_cell self u = check_mark)).
Proof.
  intros H.
  assert (Hcell : forall u,
             (yes_cell self u = check_mark <-> In u (yes self))
             /\ (no_cell self u = check_mark <-> In u (no self))
             /\ (abstain_cell self u = check_mark <-> In u (abstain self))).
  { intros u. unfold yes_cell, no_cell, abstain_cell.
    rewrite !cell_is_check_mark, !py_in_In by discriminate. tauto. }
  split; [apply buildVoteTable_rows|]. split.
  - intros u Hu. destruct (Hcell u) as (Cy & Cn & Ca).
    rewrite Cy, Cn, Ca.
    destruct (init_inv_union _ _ _ _ _ H u) as (Huv & _).
    unfold votes_cnt in Huv. rewrite !cnt_In in *. lia.
  - intros rl u Hr Hp. destruct (Hcell u) as (Cy & Cn & Ca).
    rewrite Cy, Cn, Ca.
    destruct (init_inv _ _ _ _ _ _ Hr H u) as (Hu & _ & Hv).
    specialize (Hv Hp). unfold votes_cnt in Hv. rewrite !cnt_In. lia.
Qed.

Lemma vote_table_marks_witness :
  buildVoteTable
    (mkPullRequest (mkRepository (Some rules_prevent_doubles) [])
       (mkGhPull (Some true) 0 [0%Z]) [] [] ["bob"] [] ["bob"] ["alice"])
  = (table_header ++ nl
     ++ "| [bob](https://github.com/bob) |     | ✔ |    |")%string.
Proof.
  apply (proj1 (vote_table_marks
                  (mkRepository (Some rules_prevent_doubles) [])
                  (mkGhPull (Some true) 0 [0%Z]) [] alice_bob_alice
                  (mkPullRequest
                     (mkRepository (Some rules_prevent_doubles) [])
                     (mkGhPull (Some true) 0 [0%Z]) [] [] ["bob"] []
                     ["bob"] ["alice"])
                  eq_refl)).
Defined.

(** ** The contributor cache *)

Lemma isContributor_calls_cached listing c cs us : forall n,
  listing = c :: cs ->
  isContributor_calls listing (mkContributorCache (Some listing) n) us
  = (map (fun u => py_in u listing) us,
     mkContributorCache (Some listing) n).
Proof.
  intros n Hl. subst listing.
  induction us as [|u us IH]; [reflexivity|].
  cbn [isContributor_calls map]. unfold isContributor_cached.
  cbn [cached]. rewrite IH. reflexivity.
Qed.

Lemma isContributor_calls_empty us : forall st,
  cached st = None \/ cached st = Some [] ->
  fst (isContributor_calls [] st us) = map (fun _ => false) us
  /\ fetched (snd (isContributor_calls [] st us))
     = (fetched st + List.length us)%nat.
Proof.
  induction us as [|u us IH]; intros st Hst; simpl.
  - split; [reflexivity | lia].
  - unfold isContributor_cached.
    assert (E : match cached st with
                | Some (c :: cs) => (py_in u (c :: cs), st)
                | _ => (py_in u [],
                        mkContributorCache (Some []) (S (fetched st)))
                end
                = (false, mkContributorCache (Some []) (S (fetched st)))).
    { destruct Hst as [-> | ->]; reflexivity. }
    rewrite E.
    destruct (IH (mkContributorCache (Some []) (S (fetched st))))
      as [Ha Hf]; [now right|].
    destruct (isContributor_calls []
                (mkContributorCache (Some []) (S (fetched st))) us)
      as [bs st'] eqn:Ec.
    simpl in *. split; [now rewrite Ha | lia].
Qed.

(** X18.  Successive calls of [isContributor] on a fresh repository
    object answer membership in the list of contributors; the list is
    fetched once, at the first call, when it is not empty, and at every call
    when it is empty. *)
Theorem isContributor_cache_behaviour listing rl us :
  fst (isContributor_calls listing cache_init us)
  = map (isContributor (mkRepository rl listing)) us
  /\ fetched (snd (isContributor_calls listing cache_init us))
     = match listing with
       | [] => List.length us
       | _ :: _ => Nat.min 1 (List.length us)
       end.
Proof.
  unfold isContributor. simpl. destruct listing as [|c cs].
  - destruct (isContributor_calls_empty us cache_init) as [Ha Hf];
      [now left|].
    rewrite Ha, Hf. split; reflexivity.
  - destruct us as [|u us]; [split; reflexivity|].
    cbn [isContributor_calls]. unfold isContributor_cached, cache_init.
    cbn [cached fetched].
    rewrite (isContributor_calls_cached (c :: cs) c cs us 1 eq_refl).
    split; reflexivity.
Qed.

(** ** Voters that only react outside the table *)

Lemma react_absent_unmapped self r self' u :
  react self r = Ok self' ->
  absent u self ->
  (login r = u -> mapped (content r) = false) ->
  absent u self'.
Proof.
  intros H Ha Hm.
  destruct (string_dec (login r) u) as [Hl|Hne].
  - specialize (Hm Hl). destruct Ha as (Hu & Hd & Hv).
    destruct (react_cases _ _ _ H) as [->|[(rl & _ & _ & Hin & _ & ->)|
      (rl & _ & _ & _ & ->)]].
    + repeat split; assumption.
    + rewrite Hl in Hin. apply py_in_true_cnt in Hin. lia.
    + rewrite Hl.
      destruct (record_vote_same self u (content r)) as (Ev & Eu & Ed).
      unfold absent. rewrite Ev, Eu, Ed, Hm. repeat split; lia.
  - destruct (react_other _ _ _ u H Hne) as (Ey & En & Ea & Eu & Ed).
    unfold absent, votes_cnt in *. rewrite Ey, En, Ea, Eu, Ed. exact Ha.
Qed.

Lemma react_all_absent_unmapped u rs : forall self self',
  votes_of u rs = 0%nat ->
  react_all self rs = Ok self' ->
  absent u self -> absent u self'.
Proof.
  induction rs as [|r rs IH]; simpl; intros self self' Hn H Ha.
  - inversion H. now subst.
  - destruct (react self r) as [s1|e] eqn:E; simpl in H; [|discriminate].
    rewrite votes_of_cons in Hn.
    apply (IH s1 self'); [lia | exact H |].
    apply (react_absent_unmapped _ _ _ u E Ha).
    intros Hl. rewrite Hl, String.eqb_refl in Hn. simpl in Hn.
    destruct (mapped (content r)); [lia | reflexivity].
Qed.

(** X19.  A voter none of whose reactions has a content of the table is
    left out of all five lists, under every policy. *)
Theorem unmapped_only_not_recorded repo p ls rs self u :
  votes_of u rs = 0%nat ->
  PullRequest_init repo p ls rs = Ok self ->
  ~ recorded u self.
Proof.
  intros Hn H.
  assert (Ha : absent u self).
  { apply (react_all_absent_unmapped u rs (fresh repo p ls) self Hn H).
    unfold absent, votes_cnt, cnt. simpl. auto. }
  destruct Ha as (Hu & Hd & Hv). unfold votes_cnt in Hv.
  unfold recorded. rewrite !cnt_In. lia.
Qed.

Lemma unmapped_only_not_recorded_witness :
  ~ recorded "carol"
      (mkPullRequest (mkRepository (Some rules_prevent_doubles) [])
         (mkGhPull (Some true) 0 [0%Z]) [] [] ["bob"] [] ["bob"] ["alice"]).
Proof.
  apply (unmapped_only_not_recorded
           (mkRepository (Some rules_prevent_doubles) [])
           (mkGhPull (Some true) 0 [0%Z]) []
           (alice_bob_alice ++ [mkReaction "carol" "heart"])
           _ "carol"); reflexivity.
Defined.

(** ** Any second reaction under [prevent_doubles] *)

Lemma react_all_app rs1 : forall self rs2,
  react_all self (rs1 ++ rs2)
  = (self' <- react_all self rs1 ;; react_all self' rs2).
Proof.
  induction rs1 as [|r rs1 IH]; intros self rs2; simpl; [reflexivity|].
  destruct (react self r) as [s1|e]; simpl; [apply IH | reflexivity].
Qed.

Section SecondReaction.

Variable repo : Repository.
Variable rl : Rules.
Variable u : string.

Hypothesis Hrules : rules repo = Some rl.
Hypothesis Hcollab : enabled (collaborators_only rl) = false.
Hypothesis Hprevent : enabled (prevent_doubles rl) = true.
Hypothesis Helig : eligible repo rl u = true.

Lemma react_all_some_phase rs : forall self,
  repository self = repo ->
  absent u self \/ counted u self \/ struck u self ->
  exists self',
    react_all self rs = Ok self' /\ repository self' = repo
    /\ (absent u self' \/ counted u self' \/ struck u self').
Proof.
  induction rs as [|r rs IH]; intros self Hrepo Hph; simpl.
  - eauto.
  - assert (Hr : rules (repository self) = Some rl) by now rewrite Hrepo.
    destruct (react_total self r rl Hr Hcollab) as [s1 E].
    rewrite E. simpl. apply IH.
    + now rewrite (react_repository _ _ _ E).
    + destruct (String.eqb_spec (login r) u) as [Hl|Hne].
      * destruct Hph as [Ha|[Hc|Hs]].
        -- destruct (react_absent repo rl u Hrules Hcollab Hprevent Helig
                       self r Hrepo Ha Hl) as [E' Hph'].
           rewrite E' in E. inversion E. subst s1.
           destruct (mapped (content r)); auto.
        -- destruct (react_counted repo rl u Hrules Hcollab Hprevent Helig
                       self r Hrepo Hc Hl) as [E' Hs].
           rewrite E' in E. inversion E. subst s1. auto.
        -- rewrite (react_struck u self r Hs Hl) in E.
           inversion E. subst s1. auto.
      * destruct (react_other_phase u _ _ _ E Hne) as (Ta & Tc & Ts).
        tauto.
Qed.

Lemma react_all_strikes rs : forall self,
  repository self = repo ->
  counted u self \/ struck u self ->
  (1 <= events_of u rs)%nat ->
  exists self', react_all self rs = Ok self' /\ struck u self'.
Proof.
  induction rs as [|r rs IH]; intros self Hrepo Hph Hn.
  - unfold events_of in Hn. simpl in Hn. lia.
  - simpl. rewrite events_of_cons in Hn.
    assert (Hr : rules (repository self) = Some rl) by now rewrite Hrepo.
    destruct (react_total self r rl Hr Hcollab) as [s1 E].
    assert (Hrepo1 : repository s1 = repo)
      by now rewrite (react_repository _ _ _ E).
    rewrite E. simpl.
    destruct (String.eqb_spec (login r) u) as [Hl|Hne].
    + assert (Hs1 : struck u s1).
      { destruct Hph as [Hc|Hs].
        - destruct (react_counted repo rl u Hrules Hcollab Hprevent Helig
                      self r Hrepo Hc Hl) as [E' Hs].
          rewrite E' in E. inversion E. now subst s1.
        - rewrite (react_struck u self r Hs Hl) in E.
          inversion E. now subst s1. }
      destruct (react_all_phases repo rl u Hrules Hcollab Hprevent Helig
                  rs s1 Hrepo1) as (Hstay & _).
      now apply Hstay.
    + destruct (react_other_phase u _ _ _ E Hne) as (_ & Tc & Ts).
      apply IH; [exact Hrepo1 | tauto | simpl in Hn; lia].
Qed.

End SecondReaction.

(** X20.  Under [prevent_doubles], once a voter that passes the filters has
    sent a reaction of the table, any further reaction of that voter,
    whatever its content, leaves the voter struck out: in [doubles] and in
    none of [yes], [no], [abstain], [users]. *)
Theorem second_reaction_strikes repo rl p ls u rs1 r1 rs2 r2 rs3 :
  rules repo = Some rl ->
  enabled (collaborators_only rl) = false ->
  enabled (prevent_doubles rl) = true ->
  eligible repo rl u = true ->
  login r1 = u -> mapped (content r1) = true ->
  login r2 = u ->
  exists self,
    PullRequest_init repo p ls (rs1 ++ r1 :: rs2 ++ r2 :: rs3) = Ok self
    /\ In u (doubles self)
    /\ ~ In u (yes self) /\ ~ In u (no self) /\ ~ In u (abstain self)
    /\ ~ In u (users self).
Proof.
  intros Hr Hc Hp He Hl1 Hm Hl2.
  unfold PullRequest_init. rewrite react_all_app.
  destruct (react_all_some_phase repo rl u Hr Hc Hp He rs1 (fresh repo p ls)
              eq_refl) as (s1 & E1 & Hrepo1 & Hph1).
  { left. unfold absent, votes_cnt, cnt. simpl. auto. }
  rewrite E1. simpl.
  assert (Hr1 : rules (repository s1) = Some rl) by now rewrite Hrepo1.
  destruct (react_total s1 r1 rl Hr1 Hc) as [s2 E2].
  rewrite E2. simpl.
  assert (Hrepo2 : repository s2 = repo)
    by now rewrite (react_repository _ _ _ E2).
  assert (Hph2 : counted u s2 \/ struck u s2).
  { destruct Hph1 as [Ha|[Hcn|Hs]].
    - destruct (react_absent repo rl u Hr Hc Hp He s1 r1 Hrepo1 Ha Hl1)
        as [E' Hph'].
      rewrite E' in E2. inversion E2. subst s2. rewrite Hm in Hph'. auto.
    - destruct (react_counted repo rl u Hr Hc Hp He s1 r1 Hrepo1 Hcn Hl1)
        as [E' Hs].
      rewrite E' in E2. inversion E2. subst s2. auto.
    - rewrite (react_struck u s1 r1 Hs Hl1) in E2.
      inversion E2. subst s2. auto. }
  destruct (react_all_strikes repo rl u Hr Hc Hp He (rs2 ++ r2 :: rs3) s2
              Hrepo2 Hph2) as (self & E & Hu & Hd & Hv).
  { apply (events_of_In u r2); [|exact Hl2].
    apply in_or_app. right. now left. }
  exists self. split; [exact E|]. unfold votes_cnt in Hv.
  split; [now apply cnt_In|].
  repeat split; apply cnt_not_In; lia.
Qed.

Lemma second_reaction_strikes_witness :
  exists self,
    PullRequest_init (mkRepository (Some rules_prevent_doubles) [])
      (mkGhPull (Some true) 0 [0%Z]) []
      ([] ++ mkReaction "alice" "+1"
          :: [mkReaction "bob" "-1"] ++ mkReaction "alice" "heart" :: [])
    = Ok self
    /\ In "alice" (doubles self)
    /\ ~ In "alice" (yes self) /\ ~ In "alice" (no self)
    /\ ~ In "alice" (abstain self) /\ ~ In "alice" (users self).
Proof.
  apply (second_reaction_strikes
           (mkRepository (Some rules_prevent_doubles) [])
           rules_prevent_doubles (mkGhPull (Some true) 0 [0%Z]) [] "alice"
           [] (mkReaction "alice" "+1") [mkReaction "bob" "-1"]
           (mkReaction "alice" "heart") []); reflexivity.
Defined.
